(** * hgdecode.loaders: loading, cleaning and splitting EEG recordings

    A shallow embedding of [hgdecode/loaders.py].  The numpy operations the
    module relies on (slices, integer and boolean indexing, reductions) are
    modelled on lists; signal amplitudes and the values of floats are
    exact rationals, and a number keeps the type Python gives it, an int
    or a [numpy.float64], since a slice bound must be an int; the external
    signal-processing routines (raw reader, concatenation, segmentation,
    channel picking, resampling, band-pass filter) and the dataset builder
    are parameters of the pipeline.  The calls to [print_manager] and
    [log.info] only report progress and are left out; the garbage
    collection after merging has no effect on values either. *)

From Stdlib Require Import ZArith QArith Qabs Qcanon Qcabs Qround Lqa.
From Stdlib Require Import Ascii DecimalString DecimalPos DecimalZ.
From stdpp Require Import base tactics option numbers list list_numbers strings.

Local Open Scope Z_scope.

(** ** Exceptions and the result monad *)

Inductive error : Type :=
  | IndexError                (* numpy index out of bounds, mask of wrong length *)
  | ValueError                (* numpy reduction over an empty array *)
  | TypeError                 (* a slice bound that is not an integer *)
  | LoadingRoutineError       (* [raise Exception('something went wrong: ...')] *)
  | ReaderError (msg : string)   (* raised by [BBCIDataset.load] *)
  | ChannelError (msg : string)  (* raised by [cnt.pick_channels] *)
  | BuilderError (msg : string). (* raised by [EEGDataset.from_epo_to_dataset] *)

Inductive result (A : Type) : Type :=
  | Ok (a : A)
  | Err (e : error).
Arguments Ok {A} a.
Arguments Err {A} e.

#[global] Instance result_ret : MRet result := fun A a => Ok a.
#[global] Instance result_bind : MBind result := fun A B f m =>
  match m with
  | Ok a => f a
  | Err e => Err e
  end.
#[global] Instance result_fmap : FMap result := fun A B f m =>
  match m with
  | Ok a => Ok (f a)
  | Err e => Err e
  end.

(** What a call into an external library gives back: a value, or the
    exception it raised. *)
Inductive external (A : Type) : Type :=
  | Returned (a : A)
  | Raised (msg : string).
Arguments Returned {A} a.
Arguments Raised {A} msg.

(** ** The stages of the loading routine and the pipeline monad

    A pipeline computation carries the stages it has run so far, in order,
    next to its result; an exception stops the run and keeps the stages
    already entered. *)

Inductive stage : Type :=
  | LoadFile (file_path : string) (load_sensor_names : option (list string))
  | Merge
  | CleanMask
  | PickChannels
  | Resample
  | Standardize.

Record pipeline (A : Type) : Type := Run {
  trace : list stage;
  outcome : result A
}.
Arguments Run {A} trace outcome.
Arguments trace {A} p.
Arguments outcome {A} p.

#[global] Instance pipeline_ret : MRet pipeline := fun A a => Run [] (Ok a).
#[global] Instance pipeline_bind : MBind pipeline := fun A B f m =>
  match outcome m with
  | Ok a => Run (trace m ++ trace (f a)) (outcome (f a))
  | Err e => Run (trace m) (Err e)
  end.

(** Enter stage [s] and run [r] in it. *)
Definition enter {A} (s : stage) (r : result A) : pipeline A := Run [s] r.

(** A step that belongs to no stage of its own. *)
Definition lift {A} (r : result A) : pipeline A := Run [] r.

(** ** numpy on lists *)

Module np.

(** [arange(n)]: the integers [0 .. n-1], empty when [n <= 0]. *)
Definition arange (n : Z) : list Z := seqZ 0 n.

(** Clipping of a slice bound against a length [n], as Python does for a
    slice of step one: a negative bound counts from the end, and every
    bound is brought back into [0 .. n]. *)
Definition adjust (n i : Z) : Z :=
  if i <? 0 then Z.max 0 (i + n) else Z.min i n.

(** [a[start:stop]]; a missing bound is [None]. *)
Definition slice {A} (a : list A) (start stop : option Z) : list A :=
  let n := Z.of_nat (length a) in
  let lo := from_option (adjust n) 0 start in
  let hi := from_option (adjust n) n stop in
  take (Z.to_nat (hi - lo)) (drop (Z.to_nat lo) a).

(** [a[i]] for an integer [i]: negative indices count from the end,
    anything outside [-n .. n-1] raises. *)
Definition item {A} (a : list A) (i : Z) : result A :=
  let n := Z.of_nat (length a) in
  let j := if i <? 0 then i + n else i in
  if (0 <=? j) && (j <? n)
  then from_option Ok (Err IndexError) (a !! Z.to_nat j)
  else Err IndexError.

(** [a[idx]] for an integer array [idx]. *)
Definition take_indices {A} (a : list A) (idx : list Z) : result (list A) :=
  mapM (item a) idx.

(** The entries of [a] at which [m] is true, in order. *)
Fixpoint compress {A} (m : list bool) (a : list A) : list A :=
  match m, a with
  | b :: m', x :: a' => if b then x :: compress m' a' else compress m' a'
  | _, _ => []
  end.

(** [a[m]] for a boolean array [m]: the lengths must agree. *)
Definition bool_index {A} (a : list A) (m : list bool) : result (list A) :=
  if decide (length m = length a) then Ok (compress m a) else Err IndexError.

(** [m.astype(int).sum()]. *)
Definition sum_int (m : list bool) : Z :=
  foldr Z.add 0 (Z.b2z <$> m).

(** A Python number: an int, or a [numpy.float64] with its value. *)
Inductive number : Type :=
  | PyInt (n : Z)
  | Float64 (x : Qc).

Definition value (a : number) : Qc :=
  match a with
  | PyInt n => Qc_of_Z n
  | Float64 x => x
  end.

(** [a + b], [a - b] and [-a]: an int as long as every operand is one. *)
Definition add (a b : number) : number :=
  match a, b with
  | PyInt m, PyInt n => PyInt (m + n)
  | _, _ => Float64 (value a + value b)%Qc
  end.

Definition sub (a b : number) : number :=
  match a, b with
  | PyInt m, PyInt n => PyInt (m - n)
  | _, _ => Float64 (value a - value b)%Qc
  end.

Definition neg (a : number) : number :=
  match a with
  | PyInt n => PyInt (- n)
  | Float64 x => Float64 (- x)%Qc
  end.

(** What a slice does with a bound: an int is taken as it is, a float is
    refused. *)
Definition operator_index (a : number) : result Z :=
  match a with
  | PyInt n => Ok n
  | Float64 _ => Err TypeError
  end.

Definition slice_bound (bound : option number) : result (option Z) :=
  match bound with
  | None => Ok None
  | Some a => Some <$> operator_index a
  end.

(** [a[start:stop]] with bounds as Python hands them over. *)
Definition getslice {A} (a : list A) (start stop : option number)
    : result (list A) :=
  lo ← slice_bound start;
  hi ← slice_bound stop;
  mret (slice a lo hi).

(** The integer nearest to [x], a half going to the even neighbour. *)
Definition nearest (x : Q) : Z :=
  let f := Qfloor x in
  match (x - inject_Z f ?= 1 # 2)%Q with
  | Lt => f
  | Gt => f + 1
  | Eq => if Z.even f then f else f + 1
  end.

(** [round(x)] on a float: the nearest integer, halves to the even
    neighbour, as a [numpy.float64]. *)
Definition round (x : Q) : number := Float64 (Qc_of_Z (nearest x)).

(** A two-dimensional array, as the list of its rows. *)
Definition matrix : Type := list (list Qc).

Definition ltb (x y : Qc) : bool :=
  match (x ?= y)%Qc with
  | Lt => true
  | _ => false
  end.

Definition maximum (x y : Qc) : Qc := if ltb x y then y else x.

(** [max(a)] over every entry of [a]; numpy refuses to reduce an array
    without entries. *)
Definition amax (a : list Qc) : result Qc :=
  match a with
  | [] => Err ValueError
  | x :: a' => Ok (foldl maximum x a')
  end.

(** [max(abs(X), axis=(1, 2))]: one peak per leading entry of [X]; an
    entry without samples cannot be reduced. *)
Definition max_abs_axis12 (X : list matrix) : result (list Qc) :=
  mapM (fun trial => amax (Qcabs <$> concat trial)) X.

(** Length of axis 1. *)
Definition n_columns (x : matrix) : nat := from_option length 0%nat (head x).

Definition column (x : matrix) (t : nat) : list Qc :=
  (fun row => default (Q2Qc 0) (row !! t)) <$> x.

Definition sum (a : list Qc) : Qc := foldr Qcplus (Q2Qc 0) a.

(** [mean(x, axis=0, keepdims=True)]: the one row of column means. *)
Definition mean_axis0 (x : matrix) : list Qc :=
  (fun t => (sum (column x t) / Qc_of_Z (Z.of_nat (length x)))%Qc)
    <$> seq 0 (n_columns x).

(** [x - m] with the row [m] broadcast along axis 0. *)
Definition sub_row (x : matrix) (m : list Qc) : matrix :=
  (fun row => zip_with Qcminus row m) <$> x.

End np.

(** ** The index arithmetic of [dl_loader] *)

(** Lines 249-250: the train length falls back to [round(tot_len / 1.8)],
    a float, when the two recordings were not loaded separately; [1.8] is
    read as the rational 18/10.  A train length that came with the
    recordings is the int it was. *)
Definition fallback_train_len (tot_len : Z) (train_len : option Z)
    : np.number :=
  match train_len with
  | None => np.round (inject_Z tot_len / (18 # 10))%Q
  | Some n => np.PyInt n
  end.

(** Lines 249-251: the train length and the test length. *)
Definition set_dimensions (tot_len : Z) (train_len : option Z)
    : np.number * np.number :=
  let train_len := fallback_train_len tot_len train_len in
  let test_len := np.sub (np.PyInt tot_len) train_len in
  (train_len, test_len).

(** Lines 253-260: how many clean trials fall into the train part and into
    the test part. *)
Definition determine_losses (clean_trial_mask : list bool) (tot_len : Z)
    (train_len test_len : np.number) : result (Z * Z) :=
  let indexes := np.arange tot_len in
  train_indexes ← np.getslice indexes (Some (np.PyInt 0)) (Some train_len);
  test_indexes ← np.getslice indexes (Some (np.neg test_len)) None;
  train_clean_trial_mask ← np.take_indices clean_trial_mask train_indexes;
  test_clean_trial_mask ← np.take_indices clean_trial_mask test_indexes;
  let new_train_len := np.sum_int train_clean_trial_mask in
  let new_test_len := np.sum_int test_clean_trial_mask in
  mret (new_train_len, new_test_len).

(** Lines 251-260 on a train length that is an int, where every slice
    bound is one: how many clean trials fall into the train part and into
    the test part. *)
Definition split_lengths (clean_trial_mask : list bool)
    (tot_len train_len : Z) : result (Z * Z) :=
  let test_len := tot_len - train_len in
  let indexes := np.arange tot_len in
  let train_indexes := np.slice indexes (Some 0) (Some train_len) in
  let test_indexes := np.slice indexes (Some (- test_len)) None in
  train_clean_trial_mask ← np.take_indices clean_trial_mask train_indexes;
  test_clean_trial_mask ← np.take_indices clean_trial_mask test_indexes;
  let new_train_len := np.sum_int train_clean_trial_mask in
  let new_test_len := np.sum_int test_clean_trial_mask in
  mret (new_train_len, new_test_len).


(** ** Recordings and trials *)

(** The continuous recording ([mne.io.RawArray]): the signal, channels by
    samples, the sampling frequency, the channel names and the event
    markers (onset sample, code). *)
Record RawArray : Type := {
  data : np.matrix;
  sfreq : Qc;
  ch_names : list string;
  events : list (Z * Z)
}.

(** The epoched recording ([SignalAndTarget]): one channels-by-samples
    array per trial and one label per trial, both in onset order. *)
Record SignalAndTarget : Type := {
  X : list np.matrix;
  y : list Z
}.

(** [name_to_start_codes]: condition name to onset codes. *)
Definition start_codes : Type := list (string * list Z).

(** A time window in milliseconds relative to the onset. *)
Definition ival_ms : Type := (Z * Z)%type.

(** ** The external routines

    [BBCIDataset(...).load], [concatenate_raws_with_events],
    [create_signal_target_from_raw_mne], [cnt.pick_channels],
    [resample_cnt] and [bandpass_cnt] come from braindecode and mne;
    [EEGDataset.from_epo_to_dataset] is the dataset builder the trials
    are handed to.  The reader, the channel picker and the builder return
    or raise; concatenation, segmentation, resampling and filtering are
    taken where they return, so nothing below speaks of an exception of
    theirs. *)
Class Collaborators (Dataset : Type) : Type := {
  BBCIDataset_load : string -> option (list string) -> external RawArray;
  concatenate_raws_with_events : list RawArray -> RawArray;
  create_signal_target_from_raw_mne :
    RawArray -> start_codes -> ival_ms -> SignalAndTarget;
  pick_channels : RawArray -> list string -> external RawArray;
  resample_cnt : RawArray -> Qc -> RawArray;
  bandpass_cnt : np.matrix -> Qc -> Qc -> Qc -> np.matrix;
  from_epo_to_dataset : SignalAndTarget -> Z -> Z -> Qc -> external Dataset
}.

(** [mne_apply(func, raw)]: a recording with the same info and the
    transformed signal. *)
Definition mne_apply (func : np.matrix -> np.matrix) (raw : RawArray)
    : RawArray :=
  {| data := func (data raw); sfreq := sfreq raw;
     ch_names := ch_names raw; events := events raw |}.

(** ** Paths *)

Definition startswith_sep (s : string) : bool :=
  match s with
  | String "/"%char _ => true
  | _ => false
  end.

Fixpoint endswith_sep (s : string) : bool :=
  match s with
  | EmptyString => false
  | String "/"%char EmptyString => true
  | String _ s' => endswith_sep s'
  end.

(** [os.path.join(a, *p)] on a POSIX system. *)
Definition join (a : string) (p : list string) : string :=
  foldl (fun path b =>
           if startswith_sep b then b
           else if bool_decide (path = EmptyString) || endswith_sep path
                then path +:+ b
                else path +:+ "/" +:+ b) a p.

(** ['{:d}'.format(n)]. *)
Definition format_d (n : Z) : string := NilZero.string_of_int (Z.to_int n).

(** ** The loaders *)

Definition get_data_files_paths (data_dir : string) (subject_id : Z)
    (train_test_split : bool) : list string :=
  let file_name := format_d subject_id +:+ ".mat" in
  if train_test_split then
    let train_file_path := join data_dir ["train"; file_name] in
    let test_file_path := join data_dir ["test"; file_name] in
    [train_file_path; test_file_path]
  else
    [join data_dir ["train"; file_name]].

(** Line 71: a trial is clean when its largest absolute amplitude is
    below 800. *)
Definition clean_trial_mask_of (X : list np.matrix) : result (list bool) :=
  peaks ← np.max_abs_axis12 X;
  mret ((fun p : Qc => np.ltb p (Qc_of_Z 800)) <$> (peaks : list Qc)).

(** Line 94: [lambda x: x - mean(x, axis=0, keepdims=True)]. *)
Definition subtract_mean (x : np.matrix) : np.matrix :=
  np.sub_row x (np.mean_axis0 x).

Section loaders.
Context {Dataset : Type} `{!Collaborators Dataset}.

Definition load_cnt (file_path : string) (channel_names : list string)
    (clean_on_all_channels : bool) : external RawArray :=
  let channel_names :=
    if clean_on_all_channels then None else Some channel_names in
  BBCIDataset_load file_path channel_names.

Definition get_clean_trial_mask (cnt : RawArray)
    (name_to_start_codes : start_codes) (clean_ival_ms : ival_ms)
    : result (list bool) :=
  let set_for_cleaning :=
    create_signal_target_from_raw_mne cnt name_to_start_codes clean_ival_ms in
  clean_trial_mask_of (X set_for_cleaning).

Definition pick_right_channels (cnt : RawArray) (channel_names : list string)
    : external RawArray :=
  pick_channels cnt channel_names.

Definition standardize_cnt (cnt : RawArray) : RawArray :=
  let cnt := mne_apply subtract_mean cnt in
  let sampling_freq := sfreq cnt in
  let nyquist_freq := (sampling_freq / Qc_of_Z 2)%Qc in
  mne_apply
    (fun x => bandpass_cnt x (Q2Qc (1 # 10)) nyquist_freq sampling_freq) cnt.

(** The recording after channel picking, optional resampling and
    standardization. *)
Definition finish (picked : RawArray) (resampling_freq : option Qc)
    : RawArray :=
  standardize_cnt
    match resampling_freq with
    | Some freq => resample_cnt picked freq
    | None => picked
    end.

(** The exception of a collaborator, as the pipeline sees it. *)
Definition reading {A} (r : external A) : result A :=
  match r with
  | Returned a => Ok a
  | Raised msg => Err (ReaderError msg)
  end.

Definition picking {A} (r : external A) : result A :=
  match r with
  | Returned a => Ok a
  | Raised msg => Err (ChannelError msg)
  end.

Definition building {A} (r : external A) : result A :=
  match r with
  | Returned a => Ok a
  | Raised msg => Err (BuilderError msg)
  end.

(** Lines 130-158 of [load_and_preprocess_data]: one file, two files, or
    the exception. *)
Definition load_continuous_data (file_paths : list string)
    (channel_names : list string) (clean_on_all_channels : bool)
    : pipeline (RawArray * option Z) :=
  let sensors := if clean_on_all_channels then None else Some channel_names in
  match file_paths with
  | [file_path] =>
      cnt ← enter (LoadFile file_path sensors)
              (reading (load_cnt file_path channel_names clean_on_all_channels));
      mret (cnt, None)
  | [train_path; test_path] =>
      train_cnt ← enter (LoadFile train_path sensors)
              (reading (load_cnt train_path channel_names clean_on_all_channels));
      test_cnt ← enter (LoadFile test_path sensors)
              (reading (load_cnt test_path channel_names clean_on_all_channels));
      let train_len := Z.of_nat (length (events train_cnt)) in
      cnt ← enter Merge
              (Ok (concatenate_raws_with_events [train_cnt; test_cnt]));
      mret (cnt, Some train_len)
  | _ => lift (Err LoadingRoutineError)
  end.

Definition load_and_preprocess_data (data_dir : string)
    (name_to_start_codes : start_codes) (channel_names : list string)
    (subject_id : Z) (resampling_freq : option Qc) (clean_ival_ms : ival_ms)
    (train_test_split clean_on_all_channels : bool)
    : pipeline (RawArray * list bool * option Z) :=
  let file_paths :=
    get_data_files_paths data_dir subject_id train_test_split in
  '(cnt, train_len) ←
    load_continuous_data file_paths channel_names clean_on_all_channels;
  clean_trial_mask ← enter CleanMask
    (get_clean_trial_mask cnt name_to_start_codes clean_ival_ms);
  cnt ← enter PickChannels (picking (pick_right_channels cnt channel_names));
  cnt ← match resampling_freq with
        | Some freq => enter Resample (Ok (resample_cnt cnt freq))
        | None => mret cnt
        end;
  cnt ← enter Standardize (Ok (standardize_cnt cnt));
  mret (cnt, clean_trial_mask, train_len).

Definition ml_loader (data_dir : string) (name_to_start_codes : start_codes)
    (channel_names : list string) (subject_id : Z)
    (resampling_freq : option Qc) (clean_ival_ms : ival_ms)
    (train_test_split : bool) : pipeline (RawArray * list bool) :=
  outputs ← load_and_preprocess_data data_dir name_to_start_codes
    channel_names subject_id resampling_freq clean_ival_ms train_test_split
    true;
  mret (outputs.1.1, outputs.1.2).

Definition dl_loader (data_dir : string) (name_to_start_codes : start_codes)
    (channel_names : list string) (subject_id : Z)
    (resampling_freq : option Qc) (clean_ival_ms epoch_ival_ms : ival_ms)
    (train_test_split clean_on_all_channels : bool) (validation_frac : Qc)
    : pipeline Dataset :=
  '(cnt, clean_trial_mask, train_len) ←
    load_and_preprocess_data data_dir name_to_start_codes channel_names
      subject_id resampling_freq clean_ival_ms train_test_split
      clean_on_all_channels;
  let epo :=
    create_signal_target_from_raw_mne cnt name_to_start_codes epoch_ival_ms in
  let tot_len := Z.of_nat (length (y epo)) in
  let '(train_len, test_len) := set_dimensions tot_len train_len in
  '(new_train_len, new_test_len) ←
    lift (determine_losses clean_trial_mask tot_len train_len test_len);
  epo_X ← lift (np.bool_index (X epo) clean_trial_mask);
  epo_y ← lift (np.bool_index (y epo) clean_trial_mask);
  lift (building (from_epo_to_dataset {| X := epo_X; y := epo_y |}
                    new_train_len new_test_len validation_frac)).

End loaders.

(** ** Counting from the index ranges

    The number of clean trials whose position in the unmasked trial
    sequence lies in [lo .. hi-1], counted position by position. *)
Definition clean_in_range (clean_trial_mask : list bool) (lo hi : Z) : Z :=
  Z.of_nat (length (filter
    (fun i : nat => lo ≤ Z.of_nat i < hi ∧ clean_trial_mask !! i = Some true)
    (seq 0 (length clean_trial_mask)))).

(** The clean trials among the positions [lo .. hi-1] of a trial sequence,
    selected by the mask restricted to those positions. *)
Definition clean_of_range {A} (trials : list A) (clean_trial_mask : list bool)
    (lo hi : nat) : list A :=
  np.compress (take (hi - lo) (drop lo clean_trial_mask))
              (take (hi - lo) (drop lo trials)).

(** Every sample of every channel of the trial is below [bound] in
    absolute value. *)
Definition all_below (bound : Qc) (trial : np.matrix) : Prop :=
  Forall (fun v => (Qcabs v < bound)%Qc) (concat trial).

(** A list of rows is an array when its rows have one length. *)
Definition rectangular (x : np.matrix) : Prop :=
  Forall (fun row => length row = np.n_columns x) x.

(** What [os.path.join] puts between a directory and the next
    component. *)
Definition separator_after (dir : string) : string :=
  if bool_decide (dir = EmptyString) || endswith_sep dir then "" else "/".

(** An offset per time sample, added to every channel. *)
Definition add_offset (x : np.matrix) (c : list Qc) : np.matrix :=
  (fun row => zip_with Qcplus row c) <$> x.

(** ** A small laboratory

    Two short two-channel recordings on disk and simple stand-ins for the
    external routines, to run the loaders on. *)
Module Demo.

Definition q (n : Z) : Qc := Qc_of_Z n.

Definition solo_raw : RawArray := {|
  data := [ q <$> [1; 2; 3; 4];
            q <$> [4; 3; 2; 1] ];
  sfreq := q 1000;
  ch_names := ["C3"; "C4"];
  events := [(1, 1)]
|}.

(** A recording without any marker. *)
Definition quiet_raw : RawArray := {|
  data := [ q <$> [2; 2; 2; 2];
            q <$> [3; 3; 3; 3] ];
  sfreq := q 1000;
  ch_names := ["C3"; "C4"];
  events := []
|}.

Definition train_raw : RawArray := {|
  data := [ q <$> [10; 20; -30; 40; 50; 60];
            q <$> [0; 5; 5; 5; -900; 5] ];
  sfreq := q 1000;
  ch_names := ["C3"; "C4"];
  events := [(1, 1); (3, 2)]
|}.

Definition test_raw : RawArray := {|
  data := [ q <$> [1; 2; 3; 4];
            q <$> [1; 2; 800; 4] ];
  sfreq := q 1000;
  ch_names := ["C3"; "C4"];
  events := [(1, 1)]
|}.

Definition disk (file_path : string) : option RawArray :=
  if bool_decide (file_path = "data/train/1.mat") then Some train_raw
  else if bool_decide (file_path = "data/test/1.mat") then Some test_raw
  else if bool_decide (file_path = "data/train/2.mat") then Some solo_raw
  else if bool_decide (file_path = "data/train/3.mat") then Some solo_raw
  else if bool_decide (file_path = "data/test/3.mat") then Some quiet_raw
  else None.

(** The rows of the named channels, in the order of the names. *)
Definition rows_of (raw : RawArray) (names : list string)
    : option np.matrix :=
  mapM (fun name =>
          snd <$> list_find (fun c => c.1 = name) (zip (ch_names raw) (data raw))
            ≫= fun c => Some c.2) names.

Definition select (raw : RawArray) (names : list string)
    : external RawArray :=
  match rows_of raw names with
  | Some rows => Returned {| data := rows; sfreq := sfreq raw;
                             ch_names := names; events := events raw |}
  | None => Raised "channel not found"
  end.

(** The reader keeps the wanted sensors that the file has. *)
Definition read (file_path : string) (load_sensor_names : option (list string))
    : external RawArray :=
  match disk file_path with
  | None => Raised "no such file"
  | Some raw =>
      match load_sensor_names with
      | None => Returned raw
      | Some names =>
          select raw (filter (fun name => name ∈ ch_names raw) names)
      end
  end.

(** End-to-end concatenation; the onsets of a later recording move by the
    samples before it. *)
Definition concatenate (raws : list RawArray) : RawArray :=
  match raws with
  | [] => {| data := []; sfreq := q 0; ch_names := []; events := [] |}
  | raw :: raws' =>
      foldl (fun acc r =>
               {| data := zip_with app (data acc) (data r);
                  sfreq := sfreq acc;
                  ch_names := ch_names acc;
                  events := events acc ++
                    ((fun e : Z * Z =>
                        (e.1 + Z.of_nat (np.n_columns (data acc)), e.2))
                       <$> events r) |})
            raw raws'
  end.

Definition ms_to_samples (raw : RawArray) (ms : Z) : Z :=
  Qfloor (Qc_of_Z ms * sfreq raw / q 1000)%Qc.

Definition label_of (codes : start_codes) (code : Z) : option Z :=
  (fun p => Z.of_nat p.1) <$> list_find (fun c => code ∈ c.2) codes.

(** One trial per marker with a known code whose window lies inside the
    recording, in onset order. *)
Definition segment (raw : RawArray) (codes : start_codes) (ival : ival_ms)
    : SignalAndTarget :=
  let n := Z.of_nat (np.n_columns (data raw)) in
  let trials :=
    omap (fun e : Z * Z =>
            label ← label_of codes e.2;
            let lo := e.1 + ms_to_samples raw ival.1 in
            let hi := e.1 + ms_to_samples raw ival.2 in
            if bool_decide (0 ≤ lo ∧ hi ≤ n)
            then Some ((fun row => take (Z.to_nat (hi - lo))
                                     (drop (Z.to_nat lo) row)) <$> data raw,
                       label)
            else None) (events raw) in
  {| X := fst <$> trials; y := snd <$> trials |}.

(** Nearest-sample resampling. *)
Definition resample (raw : RawArray) (freq : Qc) : RawArray :=
  let pos (j : Z) : Z := Qfloor (Qc_of_Z j * sfreq raw / freq)%Qc in
  let n := Qfloor (Qc_of_Z (Z.of_nat (np.n_columns (data raw)))
                   * freq / sfreq raw)%Qc in
  {| data := (fun row => (fun j => default (q 0) (row !! Z.to_nat (pos j)))
                           <$> seqZ 0 n) <$> data raw;
     sfreq := freq;
     ch_names := ch_names raw;
     events := (fun e : Z * Z =>
                  (Qfloor (Qc_of_Z e.1 * freq / sfreq raw)%Qc, e.2))
                 <$> events raw |}.

(** The dataset builder is left symbolic: a dataset is the call it was
    built by. *)
Definition Dataset : Type := (SignalAndTarget * Z * Z * Qc)%type.

#[local] Instance lab : Collaborators Dataset := {|
  BBCIDataset_load := read;
  concatenate_raws_with_events := concatenate;
  create_signal_target_from_raw_mne := segment;
  pick_channels := select;
  resample_cnt := resample;
  bandpass_cnt := fun x _ _ _ => x;
  from_epo_to_dataset := fun epo train_len test_len validation_frac =>
    Returned (epo, train_len, test_len, validation_frac)
|}.

(** The same laboratory with another recording in the test file. *)
Definition read_other_test (file_path : string)
    (load_sensor_names : option (list string)) : external RawArray :=
  if bool_decide (file_path = "data/test/1.mat")
  then Returned solo_raw
  else read file_path load_sensor_names.

#[local] Instance lab_other_test : Collaborators Dataset := {|
  BBCIDataset_load := read_other_test;
  concatenate_raws_with_events := concatenate;
  create_signal_target_from_raw_mne := segment;
  pick_channels := select;
  resample_cnt := resample;
  bandpass_cnt := fun x _ _ _ => x;
  from_epo_to_dataset := fun epo train_len test_len validation_frac =>
    Returned (epo, train_len, test_len, validation_frac)
|}.

Definition codes : start_codes := [("Right Hand", [1]); ("Left Hand", [2])].

End Demo.

(** * Properties *)

(** ** Small runs of the index arithmetic *)

Example split_lengths_mixed :
  split_lengths [true; false; true; true] 4 2 = Ok (1, 2).
Proof. vm_compute. reflexivity. Qed.
Example split_lengths_single : split_lengths [true] 1 1 = Ok (1, 1).
Proof. vm_compute. reflexivity. Qed.
Example fallback_nine :
  fallback_train_len 9 None = np.Float64 (Qc_of_Z 5).
Proof. reflexivity. Qed.
Example fallback_one :
  fallback_train_len 1 None = np.Float64 (Qc_of_Z 1).
Proof. reflexivity. Qed.
Example dimensions_of_two_files :
  set_dimensions 4 (Some 2) = (np.PyInt 2, np.PyInt 2).
Proof. reflexivity. Qed.
Example losses_mixed :
  determine_losses [true; false; true; true] 4 (np.PyInt 2) (np.PyInt 2)
  = Ok (1, 2).
Proof. vm_compute. reflexivity. Qed.
Example losses_float_bound :
  determine_losses [true; false; true; true] 4
    (np.Float64 (Qc_of_Z 2)) (np.Float64 (Qc_of_Z 2))
  = Err TypeError.
Proof. reflexivity. Qed.

(** ** Facts about the numpy model *)

Section np_facts.
Context {A : Type}.
Implicit Types (a : list A) (m : list bool).

Lemma item_lookup a (i : nat) x :
  a !! i = Some x → np.item a (Z.of_nat i) = Ok x.
Proof.
  intros Hx. pose proof (lookup_lt_Some _ _ _ Hx) as Hlt.
  unfold np.item.
  destruct (Z.of_nat i <? 0) eqn:Hneg; [lia|].
  replace (0 <=? Z.of_nat i) with true by (symmetry; apply Z.leb_le; lia).
  replace (Z.of_nat i <? Z.of_nat (length a)) with true
    by (symmetry; apply Z.ltb_lt; lia).
  simpl. rewrite Nat2Z.id, Hx. reflexivity.
Qed.

Lemma take_indices_seqZ a (lo len : nat) :
  (lo + len ≤ length a)%nat →
  np.take_indices a (seqZ (Z.of_nat lo) (Z.of_nat len))
  = Ok (take len (drop lo a)).
Proof.
  revert lo. induction len as [|len IH]; intros lo Hle.
  - rewrite seqZ_nil by lia. reflexivity.
  - rewrite seqZ_cons by lia.
    destruct (lookup_lt_is_Some_2 a lo) as [x Hx]; [lia|].
    unfold np.take_indices in *. cbn [mapM].
    rewrite (item_lookup _ _ _ Hx). cbn.
    replace (Z.succ (Z.of_nat lo)) with (Z.of_nat (S lo)) by lia.
    replace (Z.pred (Z.of_nat (S len))) with (Z.of_nat len) by lia.
    rewrite IH by lia. cbn.
    rewrite (drop_S _ _ _ Hx). reflexivity.
Qed.

Lemma compress_app m1 m2 a1 a2 :
  length m1 = length a1 →
  np.compress (m1 ++ m2) (a1 ++ a2) = np.compress m1 a1 ++ np.compress m2 a2.
Proof.
  revert a1. induction m1 as [|b m1 IH]; intros [|x a1] Hlen;
    simplify_eq/=; [done|].
  rewrite IH by done. by destruct b.
Qed.

Lemma length_compress m a :
  length m = length a → Z.of_nat (length (np.compress m a)) = np.sum_int m.
Proof.
  revert a. induction m as [|b m IH]; intros [|x a] Hlen; simplify_eq/=;
    [done|].
  unfold np.sum_int in *. cbn. specialize (IH _ Hlen).
  destruct b; cbn [length Z.b2z]; lia.
Qed.

Lemma compress_all_false m a :
  Forall (λ b, b = false) m → np.compress m a = [].
Proof.
  intros Hm. revert a. induction Hm as [|b m -> _ IH]; intros [|x a]; cbn; auto.
Qed.

End np_facts.

Lemma sum_int_nonneg m : 0 ≤ np.sum_int m.
Proof.
  unfold np.sum_int. induction m as [|[] m IH]; cbn [fmap list_fmap foldr Z.b2z]; lia.
Qed.

Lemma sum_int_app m1 m2 : np.sum_int (m1 ++ m2) = np.sum_int m1 + np.sum_int m2.
Proof.
  unfold np.sum_int. induction m1 as [|b m1 IH]; cbn; [done|].
  cbn in IH. rewrite IH. lia.
Qed.

(** The two index slices of [dl_loader], on the closed range of split
    points. *)

Lemma train_indexes_eq tot_len train_len :
  0 ≤ train_len ≤ tot_len →
  np.slice (np.arange tot_len) (Some 0) (Some train_len) = seqZ 0 train_len.
Proof.
  intros H. unfold np.slice, np.arange. cbn [from_option].
  rewrite length_seqZ, Z2Nat.id by lia. unfold np.adjust.
  replace (0 <? 0) with false by done.
  replace (train_len <? 0) with false by (symmetry; apply Z.ltb_ge; lia).
  rewrite Z.min_l, Z.min_l by lia. rewrite Z.sub_0_r.
  change (Z.to_nat 0) with 0%nat. rewrite drop_0.
  apply list_eq. intros i. rewrite lookup_take.
  case_decide as Hi.
  - rewrite !lookup_seqZ_lt by lia. done.
  - rewrite lookup_seqZ_ge by lia. done.
Qed.

Lemma test_indexes_eq tot_len train_len :
  0 ≤ train_len < tot_len →
  np.slice (np.arange tot_len) (Some (- (tot_len - train_len))) None
  = seqZ train_len (tot_len - train_len).
Proof.
  intros H. unfold np.slice, np.arange. cbn [from_option].
  rewrite length_seqZ, Z2Nat.id by lia. unfold np.adjust.
  replace (- (tot_len - train_len) <? 0) with true
    by (symmetry; apply Z.ltb_lt; lia).
  rewrite Z.max_r by lia.
  replace (- (tot_len - train_len) + tot_len) with train_len by lia.
  apply list_eq. intros i. rewrite lookup_take, lookup_drop.
  case_decide as Hi.
  - rewrite !lookup_seqZ_lt by lia. f_equal. lia.
  - rewrite !lookup_seqZ_ge by lia. done.
Qed.

(** With no test trial, [-test_len] is [0] and the slice [indexes[-0:]] is
    the whole index array. *)
Lemma test_indexes_all tot_len :
  0 ≤ tot_len →
  np.slice (np.arange tot_len) (Some (- (tot_len - tot_len))) None
  = seqZ 0 tot_len.
Proof.
  intros H. unfold np.slice, np.arange. cbn [from_option].
  rewrite length_seqZ, Z2Nat.id by lia. unfold np.adjust.
  rewrite Z.sub_diag. cbn [Z.opp Z.ltb Z.compare].
  rewrite Z.min_l by lia. rewrite Z.sub_0_r.
  change (Z.to_nat 0) with 0%nat. rewrite drop_0.
  apply take_ge. rewrite length_seqZ. lia.
Qed.

Section slices.
Context {A : Type}.
Implicit Types a : list A.

Lemma slice_prefix a (k : nat) :
  (k ≤ length a)%nat → np.slice a None (Some (Z.of_nat k)) = take k a.
Proof.
  intros Hk. unfold np.slice, np.adjust. cbn [from_option].
  replace (Z.of_nat k <? 0) with false by (symmetry; apply Z.ltb_ge; lia).
  rewrite Z.min_l by lia. rewrite Z.sub_0_r, Nat2Z.id.
  change (Z.to_nat 0) with 0%nat. by rewrite drop_0.
Qed.

Lemma slice_suffix a (k : nat) :
  (k ≤ length a)%nat → np.slice a (Some (Z.of_nat k)) None = drop k a.
Proof.
  intros Hk. unfold np.slice, np.adjust. cbn [from_option].
  replace (Z.of_nat k <? 0) with false by (symmetry; apply Z.ltb_ge; lia).
  rewrite Z.min_l by lia. rewrite Nat2Z.id.
  apply take_ge. rewrite length_drop. lia.
Qed.

End slices.

(** ** The counts of [split_lengths] *)

Lemma split_lengths_inside mask (train_len : nat) :
  (train_len < length mask)%nat →
  split_lengths mask (Z.of_nat (length mask)) (Z.of_nat train_len)
  = Ok (np.sum_int (take train_len mask), np.sum_int (drop train_len mask)).
Proof.
  intros Hlt. unfold split_lengths.
  rewrite train_indexes_eq, test_indexes_eq by lia.
  change 0 with (Z.of_nat 0) at 1.
  rewrite take_indices_seqZ by (cbn; lia). cbn [mbind result_bind].
  rewrite <- Nat2Z.inj_sub by lia.
  rewrite take_indices_seqZ by lia. cbn [mbind result_bind mret result_ret].
  rewrite drop_0. do 3 f_equal.
  apply take_ge. rewrite length_drop. lia.
Qed.

(** Without test trials both counts are the count over the whole mask. *)
Lemma split_lengths_no_test mask :
  split_lengths mask (Z.of_nat (length mask)) (Z.of_nat (length mask))
  = Ok (np.sum_int mask, np.sum_int mask).
Proof.
  unfold split_lengths.
  rewrite train_indexes_eq, test_indexes_all by lia.
  change 0 with (Z.of_nat 0).
  rewrite take_indices_seqZ by (cbn; lia). cbn [mbind result_bind mret result_ret].
  rewrite drop_0, firstn_all. reflexivity.
Qed.

Lemma split_lengths_train mask (train_len : nat) :
  (train_len ≤ length mask)%nat →
  ∃ new_test_len,
    split_lengths mask (Z.of_nat (length mask)) (Z.of_nat train_len)
    = Ok (np.sum_int (take train_len mask), new_test_len).
Proof.
  intros Hle. destruct (decide (train_len = length mask)) as [->|Hne].
  - eexists. rewrite split_lengths_no_test, firstn_all. reflexivity.
  - eexists. apply split_lengths_inside. lia.
Qed.

(** The position-by-position count agrees with the sum over a window of
    the mask. *)

Lemma length_filter_fmap {A B} (f : A → B) (P : B → Prop)
    `{!∀ x, Decision (P x)} (l : list A) :
  length (filter P (f <$> l)) = length (filter (P ∘ f) l).
Proof.
  induction l as [|x l IH]; [done|].
  rewrite fmap_cons, !filter_cons. cbn [compose].
  destruct (decide (P (f x))); cbn [length]; by rewrite IH.
Qed.

Lemma clean_in_range_cons b mask lo hi :
  clean_in_range (b :: mask) lo hi
  = (if bool_decide (lo ≤ 0 < hi) && b then 1 else 0)
    + clean_in_range mask (lo - 1) (hi - 1).
Proof.
  unfold clean_in_range. cbn [length seq].
  rewrite <- fmap_S_seq, filter_cons.
  assert (Htail : length (filter
      (λ i : nat, lo ≤ Z.of_nat i < hi ∧ (b :: mask) !! i = Some true)
      (S <$> seq 0 (length mask)))
    = length (filter
      (λ i : nat, lo - 1 ≤ Z.of_nat i < hi - 1 ∧ mask !! i = Some true)
      (seq 0 (length mask)))).
  { rewrite length_filter_fmap. f_equal. apply list_filter_iff.
    intros i. cbn. split; intros [? ?]; split; (lia || done). }
  destruct (decide _) as [[Hr Hb]|Hd]; cbn [length]; rewrite Htail.
  - cbn in Hb. injection Hb as ->. rewrite bool_decide_eq_true_2 by lia.
    cbn. lia.
  - case_bool_decide as Hr; [|done]. destruct b; [|done].
    exfalso. apply Hd. split; [lia|done].
Qed.

Lemma clean_in_range_empty mask lo hi :
  hi ≤ lo → clean_in_range mask lo hi = 0.
Proof.
  revert lo hi. induction mask as [|b mask IH]; intros lo hi Hle; [done|].
  rewrite clean_in_range_cons, IH by lia.
  case_bool_decide; [lia|done].
Qed.

Lemma clean_in_range_window mask (lo n : nat) :
  clean_in_range mask (Z.of_nat lo) (Z.of_nat lo + Z.of_nat n)
  = np.sum_int (take n (drop lo mask)).
Proof.
  revert lo n. induction mask as [|b mask IH]; intros lo n.
  - by rewrite drop_nil, take_nil.
  - rewrite clean_in_range_cons. destruct lo as [|lo].
    + destruct n as [|n]; cbn [drop take].
      * rewrite clean_in_range_empty by lia.
        rewrite bool_decide_eq_false_2 by lia. done.
      * assert (Hshift : clean_in_range mask (Z.of_nat 0 - 1)
                           (Z.of_nat 0 + Z.of_nat (S n) - 1)
                         = clean_in_range mask (Z.of_nat 0)
                             (Z.of_nat 0 + Z.of_nat n)).
        { unfold clean_in_range. do 2 f_equal. apply list_filter_iff.
          intros i. split; intros [? ?]; split; (lia || done). }
        rewrite Hshift, IH, drop_0.
        rewrite bool_decide_eq_true_2 by lia.
        unfold np.sum_int. cbn [fmap list_fmap foldr andb].
        by destruct b.
    + cbn [drop]. rewrite <- IH.
      rewrite bool_decide_eq_false_2 by lia. cbn [andb].
      rewrite Z.add_0_l. f_equal; lia.
Qed.

Lemma split_lengths_counts mask (train_len : nat) :
  (train_len < length mask)%nat →
  split_lengths mask (Z.of_nat (length mask)) (Z.of_nat train_len)
  = Ok (clean_in_range mask 0 (Z.of_nat train_len),
        clean_in_range mask (Z.of_nat train_len) (Z.of_nat (length mask))).
Proof.
  intros Hlt. rewrite split_lengths_inside by done. do 2 f_equal.
  - pose proof (clean_in_range_window mask 0 train_len) as H.
    rewrite drop_0 in H. rewrite <- H. f_equal.
  - pose proof (clean_in_range_window mask train_len (length mask - train_len)) as H.
    rewrite take_ge in H by (rewrite length_drop; lia).
    rewrite <- H. f_equal. lia.
Qed.

(** ** Filtering once and cutting at the train count *)

(** C2. For every trial sequence and every mask of the same length, and
    every train length between zero and the number of trials: the counts
    of [dl_loader] are computed, the mask selects the trials once over the
    whole sequence, and of the selected trials the first [new_train_len]
    are exactly the clean trials of the train range and the others are
    exactly the clean trials of the test range; the cut prefix is also what
    the mask restricted to the train range selects from the train range
    alone. *)
Theorem filter_then_prefix {A} (trials : list A) (clean_trial_mask : list bool)
    (train_len : Z) :
  length clean_trial_mask = length trials →
  0 ≤ train_len ≤ Z.of_nat (length trials) →
  ∃ new_train_len new_test_len kept,
    split_lengths clean_trial_mask (Z.of_nat (length trials)) train_len
      = Ok (new_train_len, new_test_len)
    ∧ np.bool_index trials clean_trial_mask = Ok kept
    ∧ np.slice kept None (Some new_train_len)
      = clean_of_range trials clean_trial_mask 0 (Z.to_nat train_len)
    ∧ np.slice kept (Some new_train_len) None
      = clean_of_range trials clean_trial_mask (Z.to_nat train_len)
          (length trials)
    ∧ np.bool_index (np.slice trials None (Some train_len))
        (np.slice clean_trial_mask None (Some train_len))
      = Ok (np.slice kept None (Some new_train_len)).
Proof.
  intros Hlen Hrange.
  set (n := Z.to_nat train_len).
  assert (Hn : (n ≤ length trials)%nat) by lia.
  replace train_len with (Z.of_nat n) by lia.
  destruct (split_lengths_train clean_trial_mask n) as [new_test_len Hsplit];
    [lia|].
  rewrite Hlen in Hsplit.
  exists (np.sum_int (take n clean_trial_mask)), new_test_len,
    (np.compress clean_trial_mask trials).
  assert (Hcut : np.compress clean_trial_mask trials
            = np.compress (take n clean_trial_mask) (take n trials)
              ++ np.compress (drop n clean_trial_mask) (drop n trials)).
  { rewrite <- (take_drop n clean_trial_mask) at 1.
    rewrite <- (take_drop n trials) at 1.
    apply compress_app. rewrite !length_take. lia. }
  assert (Hcount : np.sum_int (take n clean_trial_mask)
            = Z.of_nat (length (np.compress (take n clean_trial_mask)
                                  (take n trials)))).
  { symmetry. apply length_compress. rewrite !length_take. lia. }
  split; [exact Hsplit|]. split.
  { unfold np.bool_index. by rewrite decide_True. }
  rewrite Hcount, Hcut.
  rewrite slice_prefix, slice_suffix by (rewrite length_app; lia).
  rewrite take_app_length, drop_app_length.
  rewrite !slice_prefix by lia.
  unfold clean_of_range. rewrite !drop_0, Nat.sub_0_r.
  split; [done|]. split.
  - f_equal; symmetry; apply take_ge; rewrite length_drop; lia.
  - unfold np.bool_index. rewrite decide_True; [done|].
    rewrite !length_take. lia.
Qed.

Lemma filter_then_prefix_witness :
  ∃ new_train_len new_test_len kept,
    split_lengths [true; false; true; true] 4 2
      = Ok (new_train_len, new_test_len)
    ∧ np.bool_index [10; 11; 12; 13] [true; false; true; true] = Ok kept
    ∧ np.slice kept None (Some new_train_len)
      = clean_of_range [10; 11; 12; 13] [true; false; true; true] 0 2
    ∧ np.slice kept (Some new_train_len) None
      = clean_of_range [10; 11; 12; 13] [true; false; true; true] 2 4
    ∧ np.bool_index (np.slice [10; 11; 12; 13] None (Some 2))
        (np.slice [true; false; true; true] None (Some 2))
      = Ok (np.slice kept None (Some new_train_len)).
Proof.
  apply (filter_then_prefix [10; 11; 12; 13] [true; false; true; true] 2).
  - reflexivity.
  - cbn. lia.
Defined.

(** ** The pipeline monad *)

Lemma outcome_bind {A B} (m : pipeline A) (f : A → pipeline B) :
  outcome (m ≫= f)
  = match outcome m with
    | Ok a => outcome (f a)
    | Err e => Err e
    end.
Proof. unfold mbind, pipeline_bind. by destruct (outcome m). Qed.

Lemma trace_bind_ok {A B} (m : pipeline A) (f : A → pipeline B) a :
  outcome m = Ok a → trace (m ≫= f) = trace m ++ trace (f a).
Proof. intros Hm. unfold mbind, pipeline_bind. by rewrite Hm. Qed.

Lemma trace_bind_err {A B} (m : pipeline A) (f : A → pipeline B) e :
  outcome m = Err e → trace (m ≫= f) = trace m.
Proof. intros Hm. unfold mbind, pipeline_bind. by rewrite Hm. Qed.

(** ** The test count when no trial is left for the test part *)

(** C1. With the mask [True], one trial in all and a train length of one
    the test range [1 .. 0] holds no trial, so no clean trial lies in it,
    and yet the count for the test part is one: [-test_len] is [0] and
    [indexes[-0:]] is every index.  A two-file load whose test recording
    has no marker reaches this point: the train length is the one marker
    of the train recording, an int, the test length is zero, and the
    dataset builder is asked for one train trial and one test trial out of
    a single trial. *)
Theorem test_count_without_test_trials :
  split_lengths [true] 1 1 = Ok (1, 1)
  ∧ clean_in_range [true] 0 1 = 1
  ∧ clean_in_range [true] 1 1 = 0
  ∧ set_dimensions 1 (Some 1) = (np.PyInt 1, np.PyInt 0)
  ∧ determine_losses [true] 1 (np.PyInt 1) (np.PyInt 0) = Ok (1, 1)
  ∧ ∃ cnt epo,
      outcome (load_and_preprocess_data (Collaborators0 := Demo.lab) "data"
                 Demo.codes ["C3"; "C4"] 3 None (0, 2) true true)
      = Ok (cnt, [true], Some 1)
      ∧ outcome (dl_loader (Collaborators0 := Demo.lab) "data" Demo.codes
                   ["C3"; "C4"] 3 None (0, 2) (-1, 2) true true (Demo.q 0))
        = Ok (epo, 1, 1, Demo.q 0)
      ∧ length (y epo) = 1%nat.
Proof.
  repeat split; try (vm_compute; reflexivity).
  eexists _, _. repeat split; vm_compute; reflexivity.
Qed.

(** ** Unfolding [load_and_preprocess_data] *)

Section pipeline_facts.
Context {Dataset : Type} `{!Collaborators Dataset}.

Lemma load_and_preprocess_data_outcome data_dir name_to_start_codes
    channel_names subject_id resampling_freq clean_ival_ms train_test_split
    clean_on_all_channels :
  outcome (load_and_preprocess_data data_dir name_to_start_codes
             channel_names subject_id resampling_freq clean_ival_ms
             train_test_split clean_on_all_channels)
  = '(raw, train_len) ←
      outcome (load_continuous_data
                 (get_data_files_paths data_dir subject_id train_test_split)
                 channel_names clean_on_all_channels);
    clean_trial_mask ←
      get_clean_trial_mask raw name_to_start_codes clean_ival_ms;
    picked ← picking (pick_right_channels raw channel_names);
    mret (finish picked resampling_freq, clean_trial_mask, train_len).
Proof.
  unfold load_and_preprocess_data. rewrite outcome_bind.
  destruct (outcome (load_continuous_data _ _ _)) as [[raw train_len]|e];
    [|done].
  cbn [mbind result_bind]. rewrite outcome_bind. cbn [enter outcome].
  destruct (get_clean_trial_mask _ _ _) as [mask|e]; [|done].
  cbn [mbind result_bind]. rewrite outcome_bind. cbn [enter outcome].
  destruct (picking _) as [picked|e]; [|done].
  cbn [mbind result_bind]. rewrite outcome_bind.
  unfold finish. by destruct resampling_freq.
Qed.

Lemma load_continuous_data_one file_path channel_names clean_on_all_channels :
  outcome (load_continuous_data [file_path] channel_names
             clean_on_all_channels)
  = raw ← reading (load_cnt file_path channel_names clean_on_all_channels);
    mret (raw, None).
Proof.
  unfold load_continuous_data. rewrite outcome_bind. cbn [enter outcome].
  by destruct (reading _).
Qed.

Lemma load_continuous_data_two train_path test_path channel_names
    clean_on_all_channels :
  outcome (load_continuous_data [train_path; test_path] channel_names
             clean_on_all_channels)
  = train_cnt ←
      reading (load_cnt train_path channel_names clean_on_all_channels);
    test_cnt ←
      reading (load_cnt test_path channel_names clean_on_all_channels);
    mret (concatenate_raws_with_events [train_cnt; test_cnt],
          Some (Z.of_nat (length (events train_cnt)))).
Proof.
  unfold load_continuous_data. rewrite outcome_bind. cbn [enter outcome].
  destruct (reading _) as [train_cnt|e]; [|done].
  cbn [mbind result_bind]. rewrite outcome_bind. cbn [enter outcome].
  by destruct (reading _) as [test_cnt|e].
Qed.

Lemma dl_loader_outcome data_dir name_to_start_codes channel_names
    subject_id resampling_freq clean_ival_ms epoch_ival_ms train_test_split
    clean_on_all_channels validation_frac :
  outcome (dl_loader data_dir name_to_start_codes channel_names subject_id
             resampling_freq clean_ival_ms epoch_ival_ms train_test_split
             clean_on_all_channels validation_frac)
  = '(cnt, clean_trial_mask, train_len) ←
      outcome (load_and_preprocess_data data_dir name_to_start_codes
                 channel_names subject_id resampling_freq clean_ival_ms
                 train_test_split clean_on_all_channels);
    let epo :=
      create_signal_target_from_raw_mne cnt name_to_start_codes
        epoch_ival_ms in
    let tot_len := Z.of_nat (length (y epo)) in
    '(new_train_len, new_test_len) ←
      (let '(train_len, test_len) := set_dimensions tot_len train_len in
       determine_losses clean_trial_mask tot_len train_len test_len);
    epo_X ← np.bool_index (X epo) clean_trial_mask;
    epo_y ← np.bool_index (y epo) clean_trial_mask;
    building (from_epo_to_dataset {| X := epo_X; y := epo_y |}
                new_train_len new_test_len validation_frac).
Proof.
  unfold dl_loader. rewrite outcome_bind.
  destruct (outcome (load_and_preprocess_data _ _ _ _ _ _ _ _))
    as [[[cnt mask] tl]|e]; [|done].
  cbn [mbind result_bind]. cbv zeta.
  destruct (set_dimensions _ tl) as [train_len test_len].
  rewrite outcome_bind. cbn [lift outcome].
  destruct (determine_losses _ _ _ _) as [[ntr nte]|e]; [|done].
  cbn [mbind result_bind]. rewrite outcome_bind. cbn [lift outcome].
  destruct (np.bool_index (X _) _) as [eX|e]; [|done].
  cbn [mbind result_bind]. rewrite outcome_bind. cbn [lift outcome].
  by destruct (np.bool_index (y _) _) as [ey|e].
Qed.

End pipeline_facts.

(** ** Rounding *)

Lemma round_nearest (x : Q) :
  (Qabs (inject_Z (np.nearest x) - x) <= 1 # 2)%Q.
Proof.
  unfold np.nearest.
  pose proof (Qfloor_le x) as Hlo. pose proof (Qlt_floor x) as Hhi.
  rewrite inject_Z_plus in Hhi. change (inject_Z 1) with 1%Q in Hhi.
  apply Qabs_Qle_condition.
  destruct (x - inject_Z (Qfloor x) ?= 1 # 2)%Q eqn:Hcmp.
  - apply Qeq_alt in Hcmp.
    destruct (Z.even (Qfloor x));
      rewrite ?inject_Z_plus; change (inject_Z 1) with 1%Q; split; lra.
  - apply Qlt_alt in Hcmp. split; lra.
  - apply Qgt_alt in Hcmp. rewrite inject_Z_plus.
    change (inject_Z 1) with 1%Q. split; lra.
Qed.

Lemma nearest_fallback (tot_len : Z) :
  np.nearest (inject_Z tot_len / (18 # 10)) = (10 * tot_len + 9) / 18.
Proof.
  pose proof (round_nearest (inject_Z tot_len / (18 # 10))) as Hr.
  set (r := np.nearest _) in *.
  apply Qabs_Qle_condition in Hr. destruct Hr as [Hlo Hhi].
  assert (Hy : (inject_Z tot_len
                == (18 # 10) * (inject_Z tot_len / (18 # 10)))%Q)
    by (field; discriminate).
  set (y := (inject_Z tot_len / (18 # 10))%Q) in *.
  assert (Hlo' : (inject_Z (10 * tot_len - 9) <= inject_Z (18 * r))%Q).
  { unfold Zminus. rewrite inject_Z_plus, inject_Z_opp, !inject_Z_mult.
    change (inject_Z 18) with 18%Q. change (inject_Z 10) with 10%Q.
    change (inject_Z 9) with 9%Q. rewrite Hy. lra. }
  assert (Hhi' : (inject_Z (18 * r) <= inject_Z (10 * tot_len + 9))%Q).
  { rewrite inject_Z_plus, !inject_Z_mult.
    change (inject_Z 18) with 18%Q. change (inject_Z 10) with 10%Q.
    change (inject_Z 9) with 9%Q. rewrite Hy. lra. }
  rewrite <- Zle_Qle in Hlo', Hhi'. clearbody r. clear - Hlo' Hhi'.
  apply Z.div_unique with (r := 10 * tot_len + 9 - 18 * r); lia.
Qed.

Lemma fallback_train_len_closed_form (tot_len : Z) :
  fallback_train_len tot_len None
  = np.Float64 (Qc_of_Z ((10 * tot_len + 9) / 18)).
Proof.
  unfold fallback_train_len, np.round. by rewrite nearest_fallback.
Qed.

(** ** Mapping a raising function over a list *)

Section mapM_result.
Context {A B : Type} (f : A → result B).

Lemma mapM_Ok l k : mapM f l = Ok k ↔ Forall2 (λ x y, f x = Ok y) l k.
Proof.
  revert k. induction l as [|x l IH]; intros k; cbn [mapM].
  - split.
    + intros [= <-]. constructor.
    + intros Hk. by inversion Hk.
  - split.
    + destruct (f x) as [y|e] eqn:Hx; [|done]. cbn [mbind result_bind].
      destruct (mapM f l) as [k'|e] eqn:Hl; [|done].
      intros [= <-]. constructor; [done|]. by apply IH.
    + intros Hk. inversion Hk as [|? y ? k' Hx Hl]; subst.
      rewrite Hx. cbn [mbind result_bind].
      apply IH in Hl. rewrite Hl. done.
Qed.

Lemma mapM_Err l e : mapM f l = Err e → ∃ x, x ∈ l ∧ f x = Err e.
Proof.
  induction l as [|x l IH]; cbn [mapM]; [done|].
  destruct (f x) as [y|e'] eqn:Hx.
  - cbn [mbind result_bind]. destruct (mapM f l) as [k'|e'']; [done|].
    intros [= ->]. destruct IH as (x' & Hin & Hx'); [done|].
    exists x'. split; [by right|done].
  - intros [= ->]. exists x. split; [by left|done].
Qed.

Lemma mapM_returns l :
  Forall (λ x, ∃ y, f x = Ok y) l → ∃ k, mapM f l = Ok k.
Proof.
  induction 1 as [|x l [y Hx] _ [k Hl]]; cbn [mapM].
  - by eexists.
  - rewrite Hx. cbn [mbind result_bind]. rewrite Hl. by eexists.
Qed.

End mapM_result.

(** ** Which exception a step can raise *)

Lemma clean_trial_mask_of_error X e :
  clean_trial_mask_of X = Err e → e = ValueError.
Proof.
  unfold clean_trial_mask_of, np.max_abs_axis12.
  destruct (mapM _ X) as [peaks|e'] eqn:Hm; [done|].
  intros [= ->]. apply mapM_Err in Hm as (trial & _ & Hm).
  unfold np.amax in Hm. destruct (Qcabs <$> concat trial); congruence.
Qed.

Lemma item_error {A} (a : list A) i e : np.item a i = Err e → e = IndexError.
Proof.
  unfold np.item. case_match; [|congruence].
  destruct (a !! _); cbn; congruence.
Qed.

Lemma take_indices_error {A} (a : list A) idx e :
  np.take_indices a idx = Err e → e = IndexError.
Proof.
  intros Hm. apply mapM_Err in Hm as (i & _ & Hi). by eapply item_error.
Qed.

Lemma split_lengths_error mask tot_len train_len e :
  split_lengths mask tot_len train_len = Err e → e = IndexError.
Proof.
  unfold split_lengths.
  destruct (np.take_indices mask (np.slice _ (Some 0) _)) eqn:H1;
    [|intros [= <-]; by eapply take_indices_error].
  cbn [mbind result_bind].
  destruct (np.take_indices mask (np.slice _ _ None)) eqn:H2.
  - done.
  - intros [= <-]. by eapply take_indices_error.
Qed.

Lemma bool_index_error {A} (a : list A) m e :
  np.bool_index a m = Err e → e = IndexError.
Proof. unfold np.bool_index. case_decide; congruence. Qed.

(** On int lengths the slices take their bounds and the counts are those
    of [split_lengths]; a float length stops the first slice. *)
Lemma determine_losses_int mask (tot_len train_len : Z) :
  determine_losses mask tot_len (np.PyInt train_len)
    (np.PyInt (tot_len - train_len))
  = split_lengths mask tot_len train_len.
Proof. reflexivity. Qed.

Lemma determine_losses_float mask (tot_len : Z) (x : Qc) test_len :
  determine_losses mask tot_len (np.Float64 x) test_len = Err TypeError.
Proof. reflexivity. Qed.

Lemma set_dimensions_int (tot_len train_len : Z) :
  set_dimensions tot_len (Some train_len)
  = (np.PyInt train_len, np.PyInt (tot_len - train_len)).
Proof. reflexivity. Qed.

Lemma set_dimensions_float (tot_len : Z) :
  ∃ x y, set_dimensions tot_len None = (np.Float64 x, np.Float64 y).
Proof. by eexists _, _. Qed.

Lemma dimensions_losses_error mask (tot_len : Z) boundary e :
  (let '(train_len, test_len) := set_dimensions tot_len boundary in
   determine_losses mask tot_len train_len test_len) = Err e →
  e = TypeError ∨ e = IndexError.
Proof.
  destruct boundary as [train_len|].
  - rewrite set_dimensions_int, determine_losses_int.
    intros ->%split_lengths_error. by right.
  - destruct (set_dimensions_float tot_len) as (x & y & ->).
    rewrite determine_losses_float. intros [= <-]. by left.
Qed.

Lemma building_error {A} (r : external A) e :
  building r = Err e → ∃ msg, e = BuilderError msg.
Proof. destruct r; intros [= <-]. by eexists. Qed.

(** ** Loading one file or two *)

Section loading.
Context {Dataset : Type} `{!Collaborators Dataset}.

Lemma reading_error {A} (r : external A) e :
  reading r = Err e → ∃ msg, e = ReaderError msg.
Proof. destruct r; intros [= <-]. by eexists. Qed.

Lemma picking_error {A} (r : external A) e :
  picking r = Err e → ∃ msg, e = ChannelError msg.
Proof. destruct r; intros [= <-]. by eexists. Qed.

Lemma length_get_data_files_paths data_dir subject_id train_test_split :
  length (get_data_files_paths data_dir subject_id train_test_split)
  = if train_test_split then 2%nat else 1%nat.
Proof. by destruct train_test_split. Qed.

Lemma load_continuous_data_count file_paths channel_names
    clean_on_all_channels :
  outcome (load_continuous_data file_paths channel_names
             clean_on_all_channels) = Err LoadingRoutineError
  ↔ length file_paths ≠ 1%nat ∧ length file_paths ≠ 2%nat.
Proof.
  destruct file_paths as [|p1 [|p2 [|p3 rest]]].
  - cbn. split; [lia|done].
  - rewrite load_continuous_data_one.
    split; [|cbn; lia].
    destruct (reading _) as [raw|e] eqn:Hr; [done|].
    apply reading_error in Hr as [msg ->]. done.
  - rewrite load_continuous_data_two.
    split; [|cbn; lia].
    destruct (reading (load_cnt p1 _ _)) as [raw1|e] eqn:Hr1.
    + cbn [mbind result_bind].
      destruct (reading (load_cnt p2 _ _)) as [raw2|e] eqn:Hr2; [done|].
      apply reading_error in Hr2 as [msg ->]. done.
    + apply reading_error in Hr1 as [msg ->]. done.
  - cbn. split; [lia|done].
Qed.

Lemma load_continuous_data_error file_paths channel_names
    clean_on_all_channels e :
  outcome (load_continuous_data file_paths channel_names
             clean_on_all_channels) = Err e →
  e = LoadingRoutineError ∨ ∃ msg, e = ReaderError msg.
Proof.
  destruct file_paths as [|p1 [|p2 [|p3 rest]]].
  - intros [= <-]. by left.
  - rewrite load_continuous_data_one.
    destruct (reading _) as [raw|e'] eqn:Hr; [done|].
    intros [= <-]. right. by eapply reading_error.
  - rewrite load_continuous_data_two.
    destruct (reading (load_cnt p1 _ _)) as [raw1|e'] eqn:Hr1.
    + cbn [mbind result_bind].
      destruct (reading (load_cnt p2 _ _)) as [raw2|e'] eqn:Hr2; [done|].
      intros [= <-]. right. by eapply reading_error.
    + intros [= <-]. right. by eapply reading_error.
  - intros [= <-]. by left.
Qed.

Lemma load_and_preprocess_data_error data_dir name_to_start_codes
    channel_names subject_id resampling_freq clean_ival_ms train_test_split
    clean_on_all_channels e :
  outcome (load_and_preprocess_data data_dir name_to_start_codes
             channel_names subject_id resampling_freq clean_ival_ms
             train_test_split clean_on_all_channels) = Err e →
  e ≠ LoadingRoutineError ∧ e ≠ IndexError.
Proof.
  rewrite load_and_preprocess_data_outcome.
  destruct (outcome (load_continuous_data _ _ _)) as [[raw tl]|e'] eqn:Hload.
  - cbn [mbind result_bind].
    destruct (get_clean_trial_mask _ _ _) as [mask|e'] eqn:Hmask.
    + cbn [mbind result_bind].
      destruct (picking _) as [picked|e'] eqn:Hpick; [done|].
      intros [= <-]. apply picking_error in Hpick as [msg ->]. done.
    + intros [= <-]. apply clean_trial_mask_of_error in Hmask as ->. done.
  - intros [= <-].
    destruct (load_continuous_data_error _ _ _ _ Hload) as [->|[msg ->]];
      [|done].
    apply load_continuous_data_count in Hload.
    rewrite length_get_data_files_paths in Hload.
    destruct train_test_split; lia.
Qed.

(** C8. Loading the continuous data raises the exception of the loading
    routine exactly when the list of file paths has neither one nor two
    entries; [get_data_files_paths] returns two paths when the train/test
    split is asked for and one path otherwise; hence no call of
    [load_and_preprocess_data], [ml_loader] or [dl_loader] ends in that
    exception. *)
Theorem loading_routine_error_unreachable :
  (∀ file_paths channel_names clean_on_all_channels,
     outcome (load_continuous_data file_paths channel_names
                clean_on_all_channels) = Err LoadingRoutineError
     ↔ length file_paths ≠ 1%nat ∧ length file_paths ≠ 2%nat)
  ∧ (∀ data_dir subject_id train_test_split,
       length (get_data_files_paths data_dir subject_id train_test_split)
       = if train_test_split then 2%nat else 1%nat)
  ∧ (∀ data_dir name_to_start_codes channel_names subject_id
       resampling_freq clean_ival_ms train_test_split clean_on_all_channels,
       outcome (load_and_preprocess_data data_dir name_to_start_codes
                  channel_names subject_id resampling_freq clean_ival_ms
                  train_test_split clean_on_all_channels)
       ≠ Err LoadingRoutineError)
  ∧ (∀ data_dir name_to_start_codes channel_names subject_id
       resampling_freq clean_ival_ms train_test_split,
       outcome (ml_loader data_dir name_to_start_codes channel_names
                  subject_id resampling_freq clean_ival_ms train_test_split)
       ≠ Err LoadingRoutineError)
  ∧ (∀ data_dir name_to_start_codes channel_names subject_id
       resampling_freq clean_ival_ms epoch_ival_ms train_test_split
       clean_on_all_channels validation_frac,
       outcome (dl_loader data_dir name_to_start_codes channel_names
                  subject_id resampling_freq clean_ival_ms epoch_ival_ms
                  train_test_split clean_on_all_channels validation_frac)
       ≠ Err LoadingRoutineError).
Proof.
  split; [exact load_continuous_data_count|].
  split; [exact length_get_data_files_paths|].
  split; [|split].
  - intros * Herr. by apply load_and_preprocess_data_error in Herr as [? _].
  - intros *. unfold ml_loader. rewrite outcome_bind.
    destruct (outcome (load_and_preprocess_data _ _ _ _ _ _ _ _))
      as [outputs|e] eqn:Hrun; [done|].
    intros [= ->]. by apply load_and_preprocess_data_error in Hrun as [? _].
  - intros *. rewrite dl_loader_outcome.
    destruct (outcome (load_and_preprocess_data _ _ _ _ _ _ _ _))
      as [[[cnt mask] tl]|e] eqn:Hrun.
    + cbn [mbind result_bind]. cbv zeta.
      destruct (let '(train_len, test_len) := set_dimensions _ _ in _)
        as [[ntr nte]|e] eqn:Hs.
      * cbn [mbind result_bind].
        destruct (np.bool_index (X _) _) as [eX|e] eqn:HX.
        -- cbn [mbind result_bind].
           destruct (np.bool_index (y _) _) as [ey|e] eqn:Hy.
           ++ cbn [mbind result_bind].
              destruct (building _) as [dataset|e] eqn:Hb; [done|].
              apply building_error in Hb as [msg ->]. done.
           ++ apply bool_index_error in Hy as ->. done.
        -- apply bool_index_error in HX as ->. done.
      * apply dimensions_losses_error in Hs as [->| ->]; done.
    + intros [= ->]. by apply load_and_preprocess_data_error in Hrun as [? _].
Qed.

(** C10. With [clean_on_all_channels] set, which is its default,
    [load_cnt] hands the reader the all-channels sentinel [None] in place
    of the channel names, so for every file path any two lists of channel
    names give the same recording. *)
Theorem load_cnt_ignores_channel_names (file_path : string)
    (channel_names channel_names' : list string) :
  load_cnt file_path channel_names true = BBCIDataset_load file_path None
  ∧ load_cnt file_path channel_names true
    = load_cnt file_path channel_names' true.
Proof. split; reflexivity. Qed.




End loading.


(** ** The split boundary of a two-file load *)

(** C4. Whenever a two-file load returns, its split boundary is the
    number of event markers of the train recording as the reader returned
    it, before the concatenation; a second load in a world that agrees
    with the first on the train file only, whatever its test file holds
    and whatever its other routines do, returns the same boundary. *)
Theorem split_boundary_is_train_marker_count {Dataset : Type}
    (lab lab' : Collaborators Dataset) (data_dir : string) (subject_id : Z)
    (channel_names : list string) (clean_on_all_channels : bool)
    (codes codes' : start_codes) (freq freq' : option Qc)
    (ival ival' : ival_ms) cnt mask boundary cnt' mask' boundary' :
  let train_path := join data_dir ["train"; format_d subject_id +:+ ".mat"] in
  (∀ sensors,
     @BBCIDataset_load _ lab train_path sensors
     = @BBCIDataset_load _ lab' train_path sensors) →
  outcome (load_and_preprocess_data (Collaborators0 := lab) data_dir codes
             channel_names subject_id freq ival true clean_on_all_channels)
  = Ok (cnt, mask, boundary) →
  outcome (load_and_preprocess_data (Collaborators0 := lab') data_dir codes'
             channel_names subject_id freq' ival' true clean_on_all_channels)
  = Ok (cnt', mask', boundary') →
  ∃ train_cnt,
    load_cnt (Collaborators0 := lab) train_path channel_names
      clean_on_all_channels = Returned train_cnt
    ∧ boundary = Some (Z.of_nat (length (events train_cnt)))
    ∧ boundary' = boundary.
Proof.
  intros train_path Hsame.
  rewrite !load_and_preprocess_data_outcome.
  unfold get_data_files_paths. rewrite !load_continuous_data_two.
  fold train_path.
  assert (Hl : load_cnt (Collaborators0 := lab') train_path channel_names
                 clean_on_all_channels
               = load_cnt (Collaborators0 := lab) train_path channel_names
                   clean_on_all_channels)
    by (unfold load_cnt; symmetry; apply Hsame).
  rewrite Hl. clear Hl.
  destruct (load_cnt train_path _ _) as [train_cnt|msg] eqn:Htrain; [|done].
  cbn [reading mbind result_bind].
  destruct (reading (load_cnt (Collaborators0 := lab) _ _ _))
    as [test_cnt|e]; [|done].
  destruct (reading (load_cnt (Collaborators0 := lab') _ _ _))
    as [test_cnt'|e]; [|done].
  cbn [mbind result_bind mret result_ret].
  destruct (get_clean_trial_mask (Collaborators0 := lab) _ _ _)
    as [m|e]; [|done].
  destruct (get_clean_trial_mask (Collaborators0 := lab') _ _ _)
    as [m'|e]; [|done].
  cbn [mbind result_bind].
  destruct (picking (pick_right_channels (Collaborators0 := lab) _ _))
    as [picked|e]; [|done].
  destruct (picking (pick_right_channels (Collaborators0 := lab') _ _))
    as [picked'|e]; [|done].
  intros [= _ _ <-] [= _ _ <-].
  exists train_cnt. done.
Qed.

Lemma split_boundary_is_train_marker_count_witness :
  (∀ sensors,
     @BBCIDataset_load _ Demo.lab "data/train/1.mat" sensors
     = @BBCIDataset_load _ Demo.lab_other_test "data/train/1.mat" sensors)
  ∧ ∃ cnt mask boundary cnt' mask' boundary',
      outcome (load_and_preprocess_data (Collaborators0 := Demo.lab) "data"
                 Demo.codes ["C3"] 1 None (0, 2) true true)
      = Ok (cnt, mask, boundary)
      ∧ outcome (load_and_preprocess_data
                   (Collaborators0 := Demo.lab_other_test) "data"
                   Demo.codes ["C3"] 1 None (0, 2) true true)
        = Ok (cnt', mask', boundary')
      ∧ mask ≠ mask'
      ∧ ∃ train_cnt,
          load_cnt (Collaborators0 := Demo.lab) "data/train/1.mat" ["C3"]
            true = Returned train_cnt
          ∧ boundary = Some (Z.of_nat (length (events train_cnt)))
          ∧ boundary' = boundary.
Proof.
  split; [intros sensors; reflexivity|].
  eexists _, _, _, _, _, _.
  split; [vm_compute; reflexivity|].
  split; [vm_compute; reflexivity|].
  split; [discriminate|].
  eapply (split_boundary_is_train_marker_count Demo.lab Demo.lab_other_test
            "data" 1 ["C3"] true Demo.codes Demo.codes None None
            (0, 2) (0, 2)).
  - intros sensors; reflexivity.
  - vm_compute; reflexivity.
  - vm_compute; reflexivity.
Defined.

(** ** The order of the stages *)

Lemma bind_ok {A B} (m : pipeline A) (f : A → pipeline B) a :
  outcome m = Ok a →
  m ≫= f = Run (trace m ++ trace (f a)) (outcome (f a)).
Proof. intros Hm. unfold mbind, pipeline_bind. by rewrite Hm. Qed.

Section stages.
Context {Dataset : Type} `{!Collaborators Dataset}.

(** What a returning load has read, and the stages it went through. *)
Lemma load_continuous_data_returns (file_paths channel_names : list string)
    (clean_on_all_channels : bool) raw boundary :
  let sensors := if clean_on_all_channels then None else Some channel_names in
  outcome (load_continuous_data file_paths channel_names
             clean_on_all_channels) = Ok (raw, boundary) →
  (∃ file_path,
     file_paths = [file_path]
     ∧ BBCIDataset_load file_path sensors = Returned raw
     ∧ boundary = None
     ∧ trace (load_continuous_data file_paths channel_names
                clean_on_all_channels) = [LoadFile file_path sensors])
  ∨ (∃ train_path test_path train_cnt test_cnt,
       file_paths = [train_path; test_path]
       ∧ BBCIDataset_load train_path sensors = Returned train_cnt
       ∧ BBCIDataset_load test_path sensors = Returned test_cnt
       ∧ raw = concatenate_raws_with_events [train_cnt; test_cnt]
       ∧ boundary = Some (Z.of_nat (length (events train_cnt)))
       ∧ trace (load_continuous_data file_paths channel_names
                  clean_on_all_channels)
         = [LoadFile train_path sensors; LoadFile test_path sensors; Merge]).
Proof.
  intros sensors.
  destruct file_paths as [|p1 [|p2 [|p3 rest]]]; [done| | |done].
  - intros Hrun. left. exists p1. revert Hrun.
    rewrite load_continuous_data_one. unfold load_continuous_data, load_cnt.
    fold sensors.
    destruct (BBCIDataset_load p1 sensors) as [r|msg] eqn:Hr; [|done].
    intros [= <- <-]. repeat split; try done.
  - intros Hrun. right. revert Hrun.
    rewrite load_continuous_data_two. unfold load_continuous_data, load_cnt.
    fold sensors.
    destruct (BBCIDataset_load p1 sensors) as [r1|msg] eqn:Hr1; [|done].
    destruct (BBCIDataset_load p2 sensors) as [r2|msg] eqn:Hr2; [|done].
    intros [= <- <-]. exists p1, p2, r1, r2. repeat split; try done.
Qed.

(** C6, as the code has it. Whenever the files are read, the peaks can be
    taken and the channels are found, [load_and_preprocess_data] goes
    through loading (and merging, for two files), masking, channel picking,
    resampling when a frequency is given, and standardization, in this
    order, and returns the standardized recording, the mask and the split
    boundary; the mask is the one [get_clean_trial_mask] computes from the
    recording as loaded and merged, before any channel is picked and before
    resampling and standardization.  That recording was read with every
    channel when [clean_on_all_channels] is set, and with the channels of
    [channel_names] only when it is not. *)
Theorem stages_in_order (data_dir : string)
    (name_to_start_codes : start_codes) (channel_names : list string)
    (subject_id : Z) (resampling_freq : option Qc) (clean_ival_ms : ival_ms)
    (train_test_split clean_on_all_channels : bool)
    raw boundary clean_trial_mask picked :
  let file_paths :=
    get_data_files_paths data_dir subject_id train_test_split in
  let sensors := if clean_on_all_channels then None else Some channel_names in
  outcome (load_continuous_data file_paths channel_names
             clean_on_all_channels) = Ok (raw, boundary) →
  get_clean_trial_mask raw name_to_start_codes clean_ival_ms
  = Ok clean_trial_mask →
  pick_right_channels raw channel_names = Returned picked →
  load_and_preprocess_data data_dir name_to_start_codes channel_names
    subject_id resampling_freq clean_ival_ms train_test_split
    clean_on_all_channels
  = Run (((λ file_path, LoadFile file_path sensors) <$> file_paths)
         ++ (if train_test_split then [Merge] else [])
         ++ [CleanMask; PickChannels]
         ++ (if resampling_freq is Some _ then [Resample] else [])
         ++ [Standardize])
        (Ok (finish picked resampling_freq, clean_trial_mask, boundary))
  ∧ ∃ loaded,
      Forall2 (λ file_path r, BBCIDataset_load file_path sensors = Returned r)
        file_paths loaded
      ∧ raw = (if train_test_split
               then concatenate_raws_with_events loaded
               else default raw (head loaded)).
Proof.
  intros file_paths sensors Hload Hmask Hpick.
  pose proof (load_continuous_data_returns _ _ _ _ _ Hload) as Hshape.
  fold sensors in Hshape.
  assert (Htrace : trace (load_continuous_data file_paths channel_names
                            clean_on_all_channels)
            = ((λ file_path, LoadFile file_path sensors) <$> file_paths)
              ++ (if train_test_split then [Merge] else [])).
  { destruct Hshape as [(p & Hp & _ & _ & Ht)
                       |(p1 & p2 & r1 & r2 & Hp & _ & _ & _ & _ & Ht)];
      rewrite Ht; subst file_paths; unfold get_data_files_paths in *;
      destruct train_test_split; simplify_eq; done. }
  split.
  - unfold load_and_preprocess_data. fold file_paths.
    rewrite (bind_ok _ _ _ Hload), Htrace. cbn zeta beta iota.
    rewrite Hmask. unfold enter at 1.
    erewrite bind_ok by reflexivity. cbn [trace outcome].
    rewrite Hpick. cbn [picking]. unfold enter at 1.
    erewrite bind_ok by reflexivity. cbn [trace outcome].
    unfold finish. destruct resampling_freq as [freq|].
    + unfold enter at 1. erewrite bind_ok by reflexivity. cbn [trace outcome].
      unfold enter. erewrite bind_ok by reflexivity. cbn.
      by rewrite <- !app_assoc.
    + erewrite bind_ok by reflexivity. cbn [trace outcome mret pipeline_ret].
      unfold enter. erewrite bind_ok by reflexivity. cbn.
      by rewrite <- !app_assoc.
  - destruct Hshape as [(p & Hp & Hr & _ & _)
                       |(p1 & p2 & r1 & r2 & Hp & Hr1 & Hr2 & -> & _ & _)].
    + exists [raw]. subst file_paths. rewrite Hp.
      unfold get_data_files_paths in Hp.
      destruct train_test_split; simplify_eq.
      split; [by repeat constructor|done].
    + exists [r1; r2]. subst file_paths. rewrite Hp.
      unfold get_data_files_paths in Hp.
      destruct train_test_split; simplify_eq.
      split; [by repeat constructor|done].
Qed.

End stages.

Lemma stages_in_order_witness :
  ∃ raw boundary clean_trial_mask picked,
    outcome (load_continuous_data (Collaborators0 := Demo.lab)
               (get_data_files_paths "data" 1 true) ["C3"] true)
    = Ok (raw, boundary)
    ∧ get_clean_trial_mask (Collaborators0 := Demo.lab) raw Demo.codes (0, 2)
      = Ok clean_trial_mask
    ∧ pick_right_channels (Collaborators0 := Demo.lab) raw ["C3"]
      = Returned picked
    ∧ load_and_preprocess_data (Collaborators0 := Demo.lab) "data"
        Demo.codes ["C3"] 1 None (0, 2) true true
      = Run [LoadFile "data/train/1.mat" None; LoadFile "data/test/1.mat" None;
             Merge; CleanMask; PickChannels; Standardize]
            (Ok (finish (Collaborators0 := Demo.lab) picked None,
                 clean_trial_mask, boundary)).
Proof.
  eexists _, _, _, _.
  split; [vm_compute; reflexivity|].
  split; [vm_compute; reflexivity|].
  split; [vm_compute; reflexivity|].
  edestruct (stages_in_order (Collaborators0 := Demo.lab) "data"
               Demo.codes ["C3"] 1 None (0, 2) true true) as [Hrun _];
    [| | |exact Hrun]; vm_compute; reflexivity.
Defined.

(** C6, as the claim has it, fails when [clean_on_all_channels] is not
    set: the two files are then read with the channel [C3] only, and the
    mask that comes back keeps all three trials, while the mask of the
    signal with all its channels rejects the second and the third, whose
    channel [C4] reaches 900 and 800. *)
Lemma mask_from_selected_channels :
  ∃ cnt boundary raw_all boundary',
    outcome (load_and_preprocess_data (Collaborators0 := Demo.lab) "data"
               Demo.codes ["C3"] 1 None (0, 2) true false)
    = Ok (cnt, [true; true; true], boundary)
    ∧ outcome (load_continuous_data (Collaborators0 := Demo.lab)
                 (get_data_files_paths "data" 1 true) ["C3"] true)
      = Ok (raw_all, boundary')
    ∧ ch_names raw_all = ["C3"; "C4"]
    ∧ get_clean_trial_mask (Collaborators0 := Demo.lab) raw_all Demo.codes
        (0, 2)
      = Ok [true; false; false].
Proof.
  eexists _, _, _, _.
  split; [vm_compute; reflexivity|].
  split; [vm_compute; reflexivity|].
  split; vm_compute; reflexivity.
Qed.

(** ** The largest absolute amplitude *)

Lemma ltb_lt x y : np.ltb x y = true ↔ (x < y)%Qc.
Proof.
  unfold np.ltb. rewrite Qclt_alt. destruct (x ?= y)%Qc; naive_solver.
Qed.

Lemma ltb_ge x y : np.ltb x y = false ↔ (y ≤ x)%Qc.
Proof.
  rewrite <- not_true_iff_false, ltb_lt. symmetry. apply Qcle_ngt.
Qed.

Lemma maximum_cases x y :
  (np.maximum x y = x ∧ (y ≤ x)%Qc) ∨ (np.maximum x y = y ∧ (x ≤ y)%Qc).
Proof.
  unfold np.maximum. destruct (np.ltb x y) eqn:Hc.
  - right. split; [done|]. apply ltb_lt in Hc. by apply Qclt_le_weak.
  - left. split; [done|]. by apply ltb_ge.
Qed.

Lemma maximum_upper x y :
  (x ≤ np.maximum x y)%Qc ∧ (y ≤ np.maximum x y)%Qc.
Proof.
  destruct (maximum_cases x y) as [[-> Hle]|[-> Hle]];
    split; (done || apply Qcle_refl).
Qed.

Lemma maximum_elem x y : np.maximum x y = x ∨ np.maximum x y = y.
Proof. destruct (maximum_cases x y) as [[-> _]|[-> _]]; auto. Qed.

Lemma foldl_maximum_spec x a :
  foldl np.maximum x a ∈ x :: a
  ∧ Forall (λ v, (v ≤ foldl np.maximum x a)%Qc) (x :: a).
Proof.
  revert x. induction a as [|z a IH]; intros x; cbn [foldl].
  - split; [by left|]. constructor; [apply Qcle_refl|constructor].
  - destruct (IH (np.maximum x z)) as [Hin Hall].
    set (peak := foldl np.maximum (np.maximum x z) a) in *.
    apply Forall_cons in Hall as [Hmax Hrest].
    destruct (maximum_upper x z) as [Hx Hz]. split.
    + apply elem_of_cons in Hin as [Heq|Hin].
      * rewrite Heq. destruct (maximum_elem x z) as [->| ->].
        -- by left.
        -- right. by left.
      * right. by right.
    + repeat apply Forall_cons_2; try done.
      * by eapply Qcle_trans.
      * by eapply Qcle_trans.
Qed.

Lemma amax_spec a peak :
  np.amax a = Ok peak → peak ∈ a ∧ Forall (λ v, (v ≤ peak)%Qc) a.
Proof.
  destruct a as [|x a]; [done|]. intros [= <-]. apply foldl_maximum_spec.
Qed.

Lemma amax_returns a : a ≠ [] → ∃ peak, np.amax a = Ok peak.
Proof. destruct a; [done|]. by eexists. Qed.

Lemma peak_below (trial : np.matrix) peak bound :
  np.amax (Qcabs <$> concat trial) = Ok peak →
  np.ltb peak bound = true ↔ all_below bound trial.
Proof.
  intros Hpeak. apply amax_spec in Hpeak as [Hin Hall].
  rewrite ltb_lt. unfold all_below. split.
  - intros Hlt. apply Forall_forall. intros v Hv.
    rewrite Forall_forall in Hall.
    eapply Qcle_lt_trans; [|exact Hlt].
    apply Hall. apply list_elem_of_fmap. by exists v.
  - intros Hbelow. apply list_elem_of_fmap in Hin as (v & -> & Hv).
    rewrite Forall_forall in Hbelow. by apply Hbelow.
Qed.

(** ** The clean-trial mask *)

Lemma clean_trial_mask_of_Ok X mask :
  clean_trial_mask_of X = Ok mask
  ↔ ∃ peaks,
      Forall2 (λ trial peak, np.amax (Qcabs <$> concat trial) = Ok peak)
        X peaks
      ∧ mask = (λ peak, np.ltb peak (Qc_of_Z 800)) <$> peaks.
Proof.
  unfold clean_trial_mask_of, np.max_abs_axis12. split.
  - destruct (mapM _ X) as [peaks|e] eqn:Hm; [|done].
    intros [= <-]. exists peaks. split; [|done]. by apply mapM_Ok.
  - intros (peaks & Hpeaks & ->). apply mapM_Ok in Hpeaks.
    by rewrite Hpeaks.
Qed.

Section mask.
Context {Dataset : Type} `{!Collaborators Dataset}.

(** C5, as the code has it. Whenever [get_clean_trial_mask] returns, the
    entry of the mask for trial [i] is [peak < 800], where [peak] is the
    largest absolute amplitude over all channels and samples of that trial:
    the trial is flagged invalid exactly when its peak reaches or exceeds
    800, that is when some sample of some channel does, and kept exactly
    when its peak is below 800.  The bound 800 is fixed in the function,
    which takes no threshold. *)
Theorem clean_mask_threshold cnt name_to_start_codes clean_ival_ms mask :
  get_clean_trial_mask cnt name_to_start_codes clean_ival_ms = Ok mask →
  ∀ (i : nat) (trial : np.matrix),
    X (create_signal_target_from_raw_mne cnt name_to_start_codes
         clean_ival_ms) !! i = Some trial →
    ∃ peak,
      np.amax (Qcabs <$> concat trial) = Ok peak
      ∧ (∃ v, v ∈ concat trial ∧ Qcabs v = peak)
      ∧ Forall (λ v, (Qcabs v ≤ peak)%Qc) (concat trial)
      ∧ mask !! i = Some (np.ltb peak (Qc_of_Z 800))
      ∧ (mask !! i = Some false ↔ (Qc_of_Z 800 ≤ peak)%Qc)
      ∧ (mask !! i = Some true ↔ (peak < Qc_of_Z 800)%Qc).
Proof.
  unfold get_clean_trial_mask. intros Hmask i trial Htrial.
  apply clean_trial_mask_of_Ok in Hmask as (peaks & Hpeaks & ->).
  destruct (Forall2_lookup_l _ _ _ _ _ Hpeaks Htrial) as (peak & Hi & Hpeak).
  exists peak. split; [done|].
  pose proof (amax_spec _ _ Hpeak) as [Hin Hall].
  split.
  { apply list_elem_of_fmap in Hin as (v & -> & Hv). by exists v. }
  split.
  { rewrite Forall_fmap in Hall. exact Hall. }
  rewrite list_lookup_fmap, Hi. cbn [fmap option_fmap option_map].
  split; [done|]. split.
  - rewrite <- ltb_ge. split; [by intros [= ->]|by intros ->].
  - rewrite <- ltb_lt. split; [by intros [= ->]|by intros ->].
Qed.

(** C7. For every recording, code map and window whose trials each hold
    at least one sample, [get_clean_trial_mask] returns a mask with exactly
    one entry per trial of the segmentation with that code map and that
    window, in the order of the trials: entry [i] tells whether trial [i]
    stays below 800 on every sample of every channel. *)
Theorem mask_matches_trials cnt name_to_start_codes clean_ival_ms :
  let trials :=
    X (create_signal_target_from_raw_mne cnt name_to_start_codes
         clean_ival_ms) in
  Forall (λ trial : np.matrix, concat trial ≠ []) trials →
  ∃ mask,
    get_clean_trial_mask cnt name_to_start_codes clean_ival_ms = Ok mask
    ∧ length mask = length trials
    ∧ Forall2 (λ (b : bool) trial, b = true ↔ all_below (Qc_of_Z 800) trial)
        mask trials.
Proof.
  intros trials Hsamples.
  destruct (mapM_returns (λ trial : np.matrix,
              np.amax (Qcabs <$> concat trial)) trials) as [peaks Hpeaks].
  { eapply Forall_impl; [exact Hsamples|]. intros trial Hne. cbn.
    apply amax_returns. intros Heq. apply Hne.
    by apply fmap_nil_inv in Heq. }
  apply mapM_Ok in Hpeaks.
  exists ((λ peak, np.ltb peak (Qc_of_Z 800)) <$> peaks).
  split; [|split].
  - unfold get_clean_trial_mask. fold trials.
    apply clean_trial_mask_of_Ok. by exists peaks.
  - rewrite length_fmap. symmetry. by eapply Forall2_length.
  - apply Forall2_fmap_l, Forall2_flip.
    eapply Forall2_impl; [exact Hpeaks|].
    intros trial peak Hpeak. cbn. by apply peak_below.
Qed.

End mask.

Lemma clean_mask_threshold_witness :
  get_clean_trial_mask (Collaborators0 := Demo.lab) Demo.train_raw
    Demo.codes (0, 2) = Ok [true; false]
  ∧ ∃ trial peak,
      X (Demo.segment Demo.train_raw Demo.codes (0, 2)) !! 1%nat = Some trial
      ∧ np.amax (Qcabs <$> concat trial) = Ok peak
      ∧ [true; false] !! 1%nat = Some (np.ltb peak (Qc_of_Z 800))
      ∧ ([true; false] !! 1%nat = Some false ↔ (Qc_of_Z 800 ≤ peak)%Qc).
Proof.
  assert (Hmask : get_clean_trial_mask (Collaborators0 := Demo.lab)
            Demo.train_raw Demo.codes (0, 2) = Ok [true; false])
    by (vm_compute; reflexivity).
  split; [exact Hmask|].
  pose proof (clean_mask_threshold (Collaborators0 := Demo.lab) _ _ _ _
                Hmask 1%nat) as Hentry.
  eexists.
  edestruct Hentry as (peak & H1 & _ & _ & H2 & H3 & _).
  - vm_compute; reflexivity.
  - exists peak. split; [reflexivity|]. split; [exact H1|].
    split; [exact H2|exact H3].
Defined.

(** C5, as the claim words it, fails on a trial whose peak is exactly
    800: the peak does not exceed 800 and the trial is flagged invalid all
    the same. *)
Lemma peak_of_800_is_rejected :
  ∃ trial peak,
    X (Demo.segment Demo.test_raw Demo.codes (0, 2)) = [trial]
    ∧ np.amax (Qcabs <$> concat trial) = Ok peak
    ∧ peak = Qc_of_Z 800
    ∧ ¬ (Qc_of_Z 800 < peak)%Qc
    ∧ get_clean_trial_mask (Collaborators0 := Demo.lab) Demo.test_raw
        Demo.codes (0, 2) = Ok [false].
Proof.
  eexists _, _.
  split; [vm_compute; reflexivity|].
  split; [vm_compute; reflexivity|].
  split; [apply Qc_is_canon; reflexivity|].
  split; [|vm_compute; reflexivity].
  intros Hlt. vm_compute in Hlt. discriminate Hlt.
Qed.

Lemma mask_matches_trials_witness :
  Forall (λ trial : np.matrix, concat trial ≠ [])
    (X (Demo.segment Demo.train_raw Demo.codes (0, 2)))
  ∧ ∃ mask,
      get_clean_trial_mask (Collaborators0 := Demo.lab) Demo.train_raw
        Demo.codes (0, 2) = Ok mask
      ∧ length mask = length (X (Demo.segment Demo.train_raw Demo.codes (0, 2)))
      ∧ Forall2 (λ (b : bool) trial, b = true ↔ all_below (Qc_of_Z 800) trial)
          mask (X (Demo.segment Demo.train_raw Demo.codes (0, 2))).
Proof.
  assert (Hsamples : Forall (λ trial : np.matrix, concat trial ≠ [])
            (X (Demo.segment Demo.train_raw Demo.codes (0, 2)))).
  { vm_compute. repeat constructor; discriminate. }
  split; [exact Hsamples|].
  exact (mask_matches_trials (Collaborators0 := Demo.lab) Demo.train_raw
           Demo.codes (0, 2) Hsamples).
Defined.

(** ** Subtracting the mean across channels *)

Lemma sum_sub_const (a : list Qc) (c : Qc) :
  np.sum ((λ v, v - c)%Qc <$> a)
  = (np.sum a - Qc_of_Z (Z.of_nat (length a)) * c)%Qc.
Proof.
  unfold np.sum. induction a as [|v a IH].
  - cbn [foldr length]. change (Z.of_nat 0) with 0.
    rewrite Z2Qc_inj_0. cbn. ring.
  - rewrite fmap_cons. cbn [foldr length].
    rewrite IH, Nat2Z.inj_succ, <- Z.add_1_r, Z2Qc_inj_add, Z2Qc_inj_1.
    ring.
Qed.

Lemma zero_mean (s n : Qc) : n ≠ Q2Qc 0 → ((s - n * (s / n)) / n)%Qc = Q2Qc 0.
Proof. intros Hn. field. exact Hn. Qed.

Section subtract_mean.
Implicit Types (x : np.matrix) (m : list Qc).

Lemma n_columns_sub_row x m :
  length m = np.n_columns x → np.n_columns (np.sub_row x m) = np.n_columns x.
Proof.
  destruct x as [|row x]; [done|]. unfold np.n_columns. cbn.
  intros Hm. rewrite length_zip_with. lia.
Qed.

Lemma rectangular_sub_row x m :
  rectangular x → length m = np.n_columns x → rectangular (np.sub_row x m).
Proof.
  intros Hx Hm. unfold rectangular. rewrite n_columns_sub_row by done.
  unfold np.sub_row. apply Forall_fmap.
  eapply Forall_impl; [exact Hx|]. intros row Hrow. cbn in *.
  rewrite length_zip_with. lia.
Qed.

Lemma column_sub_row x m (t : nat) c :
  rectangular x → length m = np.n_columns x → m !! t = Some c →
  np.column (np.sub_row x m) t = (λ v, v - c)%Qc <$> np.column x t.
Proof.
  intros Hx Hm Hc. unfold np.column, np.sub_row.
  rewrite <- !list_fmap_compose. apply Forall_fmap_ext_1.
  eapply Forall_impl; [exact Hx|]. intros row Hrow. cbn.
  rewrite lookup_zip_with, Hc.
  pose proof (lookup_lt_Some _ _ _ Hc) as Hlt. cbv beta in Hrow.
  destruct (lookup_lt_is_Some_2 row t) as [v Hv]; [lia|].
  by rewrite Hv.
Qed.

Lemma mean_axis0_subtract_mean x :
  rectangular x →
  np.mean_axis0 (subtract_mean x) = replicate (np.n_columns x) (Q2Qc 0).
Proof.
  intros Hx. unfold subtract_mean.
  assert (Hm : length (np.mean_axis0 x) = np.n_columns x).
  { unfold np.mean_axis0. by rewrite length_fmap, length_seq. }
  unfold np.mean_axis0 at 1. rewrite n_columns_sub_row by done.
  erewrite (const_fmap _ _ (Q2Qc 0)); [by rewrite length_seq|].
  intros i t Ht.
  apply lookup_seq in Ht as [-> Hlt]. cbn [Nat.add].
  destruct (lookup_lt_is_Some_2 (np.mean_axis0 x) i) as [c Hc]; [lia|].
  rewrite (column_sub_row _ _ _ _ Hx Hm Hc), sum_sub_const.
  assert (Hc' : c = (np.sum (np.column x i)
                     / Qc_of_Z (Z.of_nat (length x)))%Qc).
  { unfold np.mean_axis0 in Hc. rewrite list_lookup_fmap in Hc.
    rewrite lookup_seq_lt in Hc by done. by injection Hc as <-. }
  unfold np.sub_row, np.column. rewrite !length_fmap. rewrite Hc'.
  fold (np.column x i). apply zero_mean.
  destruct x as [|row x]; [cbn in Hlt; lia|].
  rewrite <- Z2Qc_inj_0. intros Heq%Z2Qc_inj. cbn [length] in Heq. lia.
Qed.

Lemma sub_row_zero x :
  rectangular x → np.sub_row x (replicate (np.n_columns x) (Q2Qc 0)) = x.
Proof.
  intros Hx. unfold np.sub_row. rewrite <- (list_fmap_id x) at 2.
  apply Forall_fmap_ext_1.
  eapply Forall_impl; [exact Hx|]. intros row Hrow. cbv beta in *.
  rewrite zip_with_replicate_r_eq by done.
  rewrite <- (list_fmap_id row) at 2. apply list_fmap_ext.
  intros i v _. unfold flip, id. ring.
Qed.

Lemma rectangular_subtract_mean x :
  rectangular x →
  rectangular (subtract_mean x)
  ∧ np.n_columns (subtract_mean x) = np.n_columns x.
Proof.
  intros Hx.
  assert (Hm : length (np.mean_axis0 x) = np.n_columns x).
  { unfold np.mean_axis0. by rewrite length_fmap, length_seq. }
  split; [by apply rectangular_sub_row|by apply n_columns_sub_row].
Qed.

(** C9. On every array of exact rationals, subtracting from each sample
    the mean across channels a second time changes nothing, on the signal
    and on the recording that carries it, and after one subtraction the
    mean across channels of every time sample is zero. *)
Theorem subtract_mean_idempotent x :
  rectangular x →
  subtract_mean (subtract_mean x) = subtract_mean x
  ∧ np.mean_axis0 (subtract_mean x) = replicate (np.n_columns x) (Q2Qc 0)
  ∧ ∀ cnt, data cnt = x →
      mne_apply subtract_mean (mne_apply subtract_mean cnt)
      = mne_apply subtract_mean cnt.
Proof.
  intros Hx. destruct (rectangular_subtract_mean x Hx) as [Hrect Hcols].
  assert (Hidem : subtract_mean (subtract_mean x) = subtract_mean x).
  { unfold subtract_mean at 1.
    rewrite (mean_axis0_subtract_mean x Hx), <- Hcols.
    by apply sub_row_zero. }
  split; [exact Hidem|]. split; [by apply mean_axis0_subtract_mean|].
  intros cnt <-. unfold mne_apply. cbn [data sfreq ch_names events].
  by rewrite Hidem.
Qed.

End subtract_mean.

Lemma subtract_mean_idempotent_witness :
  rectangular (data Demo.train_raw)
  ∧ subtract_mean (subtract_mean (data Demo.train_raw))
    = subtract_mean (data Demo.train_raw)
  ∧ np.mean_axis0 (subtract_mean (data Demo.train_raw))
    = replicate 6 (Q2Qc 0).
Proof.
  assert (Hrect : rectangular (data Demo.train_raw))
    by (repeat constructor).
  split; [exact Hrect|].
  destruct (subtract_mean_idempotent (data Demo.train_raw) Hrect)
    as (Hidem & Hzero & _).
  split; [exact Hidem|exact Hzero].
Defined.

(** * Further properties *)

(** ** File paths *)

Lemma string_app_cons (c : ascii) (s t : string) :
  String c s +:+ t = String c (s +:+ t).
Proof. reflexivity. Qed.

Lemma string_app_nil (t : string) : EmptyString +:+ t = t.
Proof. reflexivity. Qed.

Lemma string_app_assoc (s1 s2 s3 : string) :
  (s1 +:+ s2) +:+ s3 = s1 +:+ (s2 +:+ s3).
Proof.
  induction s1 as [|c s1 IH]; [done|].
  rewrite !string_app_cons. by f_equal.
Qed.

Lemma string_app_length (s1 s2 : string) :
  String.length (s1 +:+ s2) = (String.length s1 + String.length s2)%nat.
Proof.
  induction s1 as [|c s1 IH]; [done|].
  rewrite string_app_cons. cbn [String.length]. by rewrite IH.
Qed.

Lemma string_app_inj_r (s1 s2 t : string) : s1 +:+ t = s2 +:+ t → s1 = s2.
Proof.
  revert s2. induction s1 as [|c s1 IH]; intros [|c' s2] Heq.
  - done.
  - apply (f_equal String.length) in Heq.
    rewrite string_app_nil, string_app_cons in Heq. cbn [String.length] in Heq.
    rewrite string_app_length in Heq. lia.
  - apply (f_equal String.length) in Heq.
    rewrite string_app_nil, string_app_cons in Heq. cbn [String.length] in Heq.
    rewrite string_app_length in Heq. lia.
  - rewrite !string_app_cons in Heq. injection Heq as -> Heq.
    f_equal. by apply IH.
Qed.

Lemma string_app_nonempty (s t : string) :
  t ≠ EmptyString → s +:+ t ≠ EmptyString.
Proof. destruct s; [done|]. by rewrite string_app_cons. Qed.

Lemma endswith_sep_append (s t : string) :
  t ≠ EmptyString → endswith_sep (s +:+ t) = endswith_sep t.
Proof.
  intros Ht. induction s as [|c s IH]; [done|].
  rewrite string_app_cons.
  pose proof (string_app_nonempty s t Ht) as Hst.
  destruct (s +:+ t) as [|c' st] eqn:Heq; [done|].
  rewrite <- IH. cbn [endswith_sep].
  by destruct c as [[] [] [] [] [] [] [] []].
Qed.

Lemma to_int_proper (n : Z) :
  Z.to_int n ≠ Decimal.Pos Decimal.Nil ∧ Z.to_int n ≠ Decimal.Neg Decimal.Nil.
Proof.
  destruct n as [|p|p]; cbn; split; try discriminate;
    intros [= H]; by apply DecimalPos.Unsigned.to_uint_nonnil in H.
Qed.

(** The decimal name of a subject reads back as the subject. *)
Lemma format_d_parses (n : Z) :
  Z.of_int <$> NilZero.int_of_string (format_d n) = Some n.
Proof.
  unfold format_d. destruct (to_int_proper n) as [Hpos Hneg].
  rewrite NilZero.isi by done. cbn. by rewrite DecimalZ.of_to.
Qed.

Lemma format_d_inj (n n' : Z) : format_d n = format_d n' → n = n'.
Proof.
  intros Heq. pose proof (format_d_parses n) as Hn.
  rewrite Heq, format_d_parses in Hn. congruence.
Qed.

Lemma startswith_sep_file_name (n : Z) :
  startswith_sep (format_d n +:+ ".mat") = false.
Proof.
  unfold format_d. destruct (to_int_proper n) as [Hpos Hneg].
  destruct (Z.to_int n) as [d|d]; [|done].
  destruct d; done.
Qed.

Lemma join_train_or_test (data_dir part file_name : string) :
  startswith_sep part = false → part ≠ EmptyString →
  endswith_sep part = false → startswith_sep file_name = false →
  join data_dir [part; file_name]
  = (data_dir +:+ separator_after data_dir) +:+ part +:+ "/" +:+ file_name.
Proof.
  intros Hpart Hne Hend Hfile. unfold join, separator_after. cbn [foldl].
  rewrite Hpart, Hfile.
  destruct (bool_decide (data_dir = "") || endswith_sep data_dir) eqn:Hdir.
  - rewrite bool_decide_eq_false_2 by by apply string_app_nonempty.
    rewrite endswith_sep_append, Hend by done. cbn [orb].
    rewrite !string_app_assoc. by rewrite string_app_nil.
  - rewrite bool_decide_eq_false_2
      by by apply string_app_nonempty, string_app_nonempty.
    rewrite !endswith_sep_append, Hend
      by (done || by apply string_app_nonempty).
    cbn [orb]. by rewrite !string_app_assoc.
Qed.

Lemma data_files_paths_form (data_dir : string) (subject_id : Z)
    (train_test_split : bool) :
  get_data_files_paths data_dir subject_id train_test_split
  = (λ part, (data_dir +:+ separator_after data_dir)
             +:+ part +:+ "/" +:+ format_d subject_id +:+ ".mat")
      <$> (if train_test_split then ["train"; "test"] else ["train"]).
Proof.
  unfold get_data_files_paths.
  pose proof (startswith_sep_file_name subject_id) as Hfile.
  destruct train_test_split; cbn [fmap list_fmap];
    rewrite !join_train_or_test by done; done.
Qed.

(** X1. The paths are the data directory, a separator unless the directory
    is empty or already ends with one, [train/] or [test/], the decimal
    subject number and [.mat]; the one path of a single-file load is the
    train path of the two-file load. *)
Theorem data_files_paths_layout (data_dir : string) (subject_id : Z)
    (train_test_split : bool) :
  get_data_files_paths data_dir subject_id train_test_split
  = (λ part, (data_dir +:+ separator_after data_dir)
             +:+ part +:+ "/" +:+ format_d subject_id +:+ ".mat")
      <$> (if train_test_split then ["train"; "test"] else ["train"])
  ∧ head (get_data_files_paths data_dir subject_id true)
    = head (get_data_files_paths data_dir subject_id false).
Proof. split; [apply data_files_paths_form|done]. Qed.

Lemma paths_share_subject (base part part' : string) (n n' : Z) :
  part ∈ ["train"; "test"] → part' ∈ ["train"; "test"] →
  base +:+ part +:+ "/" +:+ format_d n +:+ ".mat"
  = base +:+ part' +:+ "/" +:+ format_d n' +:+ ".mat" →
  part = part' ∧ n = n'.
Proof.
  intros Hpart Hpart' Heq. apply (inj (String.append base)) in Heq.
  rewrite !elem_of_cons, elem_of_nil in Hpart, Hpart'.
  assert (Hsame : part = part').
  { destruct Hpart as [->|[->|[]]], Hpart' as [->|[->|[]]];
      (done || discriminate Heq). }
  split; [done|]. subst part'.
  apply (inj (String.append part)) in Heq.
  rewrite !string_app_cons, !string_app_nil in Heq. injection Heq as Heq.
  by apply string_app_inj_r, format_d_inj in Heq.
Qed.

Lemma elem_of_data_files_paths (data_dir : string) (subject_id : Z)
    (train_test_split : bool) (file_path : string) :
  file_path ∈ get_data_files_paths data_dir subject_id train_test_split →
  ∃ part, part ∈ ["train"; "test"]
    ∧ file_path = (data_dir +:+ separator_after data_dir)
                  +:+ part +:+ "/" +:+ format_d subject_id +:+ ".mat".
Proof.
  rewrite data_files_paths_form. intros Hin.
  apply list_elem_of_fmap in Hin as (part & -> & Hpart).
  exists part. split; [|done].
  destruct train_test_split; rewrite !elem_of_cons, elem_of_nil in *; tauto.
Qed.

(** X2. The train path and the test path of a two-file load are two
    different paths, whatever the directory and the subject. *)
Theorem train_and_test_paths_differ (data_dir : string) (subject_id : Z) :
  NoDup (get_data_files_paths data_dir subject_id true).
Proof.
  rewrite data_files_paths_form. cbn [fmap list_fmap].
  apply NoDup_cons. split; [|apply NoDup_singleton].
  rewrite list_elem_of_singleton. intros Heq.
  apply paths_share_subject in Heq as [Heq _];
    [discriminate Heq| |]; rewrite !elem_of_cons; auto.
Qed.

(** X3. Two subjects never share a file: a path that is among the paths
    of one subject and among the paths of another, in the same directory,
    in either mode, makes them one subject. *)
Theorem paths_tell_subjects_apart (data_dir : string) (subject_id subject_id' : Z)
    (train_test_split train_test_split' : bool) (file_path : string) :
  file_path ∈ get_data_files_paths data_dir subject_id train_test_split →
  file_path ∈ get_data_files_paths data_dir subject_id' train_test_split' →
  subject_id = subject_id'.
Proof.
  intros (part & Hpart & ->)%elem_of_data_files_paths
         (part' & Hpart' & Heq)%elem_of_data_files_paths.
  by apply paths_share_subject in Heq as [_ Heq].
Qed.

Lemma paths_tell_subjects_apart_witness :
  "data/train/7.mat" ∈ get_data_files_paths "data" 7 true
  ∧ "data/train/7.mat" ∈ get_data_files_paths "data" 7 false
  ∧ 7 = 7.
Proof.
  assert (Hin : "data/train/7.mat" ∈ get_data_files_paths "data" 7 true)
    by (vm_compute; left).
  assert (Hin' : "data/train/7.mat" ∈ get_data_files_paths "data" 7 false)
    by (vm_compute; left).
  split; [exact Hin|]. split; [exact Hin'|].
  exact (paths_tell_subjects_apart "data" 7 7 true false _ Hin Hin').
Defined.

(** ** The fallback split and the two counts *)

(** X4. For every number of trials the fallback train length is a float
    whose value is an integer between zero and that number, and the value
    grows with the number of trials; it takes every trial, leaving none
    for the test part, exactly when there is at most one trial. *)
Theorem fallback_train_len_bounds (tot_len tot_len' : Z) :
  0 ≤ tot_len ≤ tot_len' →
  ∃ r r' : Z,
    fallback_train_len tot_len None = np.Float64 (Qc_of_Z r)
    ∧ fallback_train_len tot_len' None = np.Float64 (Qc_of_Z r')
    ∧ 0 ≤ r ≤ tot_len
    ∧ (r = tot_len ↔ tot_len ≤ 1)
    ∧ r ≤ r'.
Proof.
  intros Hle. exists ((10 * tot_len + 9) / 18), ((10 * tot_len' + 9) / 18).
  rewrite !fallback_train_len_closed_form.
  pose proof (Z.div_mod (10 * tot_len + 9) 18 ltac:(done)) as Hd.
  pose proof (Z.mod_pos_bound (10 * tot_len + 9) 18 ltac:(done)) as Hm.
  split; [done|]. split; [done|]. split; [lia|]. split; [lia|].
  apply Z.div_le_mono; lia.
Qed.

Lemma fallback_train_len_bounds_witness :
  0 ≤ 9 ≤ 160
  ∧ ∃ r r' : Z,
      fallback_train_len 9 None = np.Float64 (Qc_of_Z r)
      ∧ fallback_train_len 160 None = np.Float64 (Qc_of_Z r')
      ∧ 0 ≤ r ≤ 9
      ∧ (r = 9 ↔ 9 ≤ 1)
      ∧ r ≤ r'.
Proof.
  assert (Hle : 0 ≤ 9 ≤ 160) by lia.
  split; [exact Hle|]. exact (fallback_train_len_bounds 9 160 Hle).
Defined.

Lemma sum_int_le_length mask : 0 ≤ np.sum_int mask ≤ Z.of_nat (length mask).
Proof.
  unfold np.sum_int.
  induction mask as [|[] mask IH]; cbn [fmap list_fmap foldr Z.b2z length];
    lia.
Qed.

Lemma sum_int_take_drop mask (n : nat) :
  np.sum_int (take n mask) + np.sum_int (drop n mask) = np.sum_int mask.
Proof. by rewrite <- sum_int_app, take_drop. Qed.

(** X5. When the train range ends before the last trial, the two counts
    are found, neither exceeds the size of its range, and together they are
    the number of trials the mask keeps: the length of any trial sequence
    after the mask is applied to it. *)
Theorem split_lengths_partition {A} (trials : list A)
    (clean_trial_mask : list bool) (train_len : Z) :
  length clean_trial_mask = length trials →
  0 ≤ train_len < Z.of_nat (length trials) →
  ∃ new_train_len new_test_len kept,
    split_lengths clean_trial_mask (Z.of_nat (length trials)) train_len
    = Ok (new_train_len, new_test_len)
    ∧ np.bool_index trials clean_trial_mask = Ok kept
    ∧ 0 ≤ new_train_len ≤ train_len
    ∧ 0 ≤ new_test_len ≤ Z.of_nat (length trials) - train_len
    ∧ new_train_len + new_test_len = Z.of_nat (length kept).
Proof.
  intros Hlen Hrange. set (n := Z.to_nat train_len).
  replace train_len with (Z.of_nat n) in * by lia.
  exists (np.sum_int (take n clean_trial_mask)),
    (np.sum_int (drop n clean_trial_mask)),
    (np.compress clean_trial_mask trials).
  split; [rewrite <- Hlen; apply split_lengths_inside; lia|].
  split; [unfold np.bool_index; by rewrite decide_True|].
  pose proof (sum_int_le_length (take n clean_trial_mask)) as Htrain.
  pose proof (sum_int_le_length (drop n clean_trial_mask)) as Htest.
  rewrite length_take in Htrain. rewrite length_drop in Htest.
  split; [lia|]. split; [lia|].
  by rewrite sum_int_take_drop, length_compress.
Qed.

Lemma split_lengths_partition_witness :
  length [true; false; true; true] = length [10; 11; 12; 13]
  ∧ 0 ≤ 2 < Z.of_nat (length [10; 11; 12; 13])
  ∧ ∃ new_train_len new_test_len kept,
      split_lengths [true; false; true; true]
        (Z.of_nat (length [10; 11; 12; 13])) 2
      = Ok (new_train_len, new_test_len)
      ∧ np.bool_index [10; 11; 12; 13] [true; false; true; true] = Ok kept
      ∧ 0 ≤ new_train_len ≤ 2
      ∧ 0 ≤ new_test_len ≤ Z.of_nat (length [10; 11; 12; 13]) - 2
      ∧ new_train_len + new_test_len = Z.of_nat (length kept).
Proof.
  assert (Hlen : length [true; false; true; true] = length [10; 11; 12; 13])
    by reflexivity.
  assert (Hrange : 0 ≤ 2 < Z.of_nat (length [10; 11; 12; 13]))
    by (cbn; lia).
  split; [exact Hlen|]. split; [exact Hrange|].
  exact (split_lengths_partition [10; 11; 12; 13] [true; false; true; true]
           2 Hlen Hrange).
Defined.

(** X6. For every train length up to the number of trials the two counts
    are found, and they add up to the number of trials the mask keeps
    exactly when a trial is left for the test part or the mask keeps no
    trial at all. *)
Theorem split_lengths_add_up_iff (clean_trial_mask : list bool)
    (train_len : Z) :
  0 ≤ train_len ≤ Z.of_nat (length clean_trial_mask) →
  ∃ new_train_len new_test_len,
    split_lengths clean_trial_mask (Z.of_nat (length clean_trial_mask))
      train_len = Ok (new_train_len, new_test_len)
    ∧ (new_train_len + new_test_len = np.sum_int clean_trial_mask
       ↔ train_len < Z.of_nat (length clean_trial_mask)
         ∨ np.sum_int clean_trial_mask = 0).
Proof.
  intros Hrange. set (n := Z.to_nat train_len).
  replace train_len with (Z.of_nat n) in * by lia.
  destruct (decide (n = length clean_trial_mask)) as [Hn|Hn].
  - rewrite Hn, split_lengths_no_test. eexists _, _. split; [done|].
    pose proof (sum_int_le_length clean_trial_mask). lia.
  - rewrite split_lengths_inside by lia. eexists _, _. split; [done|].
    rewrite sum_int_take_drop. split; [lia|done].
Qed.

Lemma split_lengths_add_up_iff_witness :
  0 ≤ 2 ≤ Z.of_nat (length [true; true])
  ∧ ∃ new_train_len new_test_len,
      split_lengths [true; true] (Z.of_nat (length [true; true])) 2
      = Ok (new_train_len, new_test_len)
      ∧ (new_train_len + new_test_len = np.sum_int [true; true]
         ↔ 2 < Z.of_nat (length [true; true])
           ∨ np.sum_int [true; true] = 0).
Proof.
  assert (Hrange : 0 ≤ 2 ≤ Z.of_nat (length [true; true])) by (cbn; lia).
  split; [exact Hrange|].
  exact (split_lengths_add_up_iff [true; true] 2 Hrange).
Defined.

(** ** A mask that does not fit the epochs *)

Lemma adjust_range (n i : Z) : 0 ≤ n → 0 ≤ np.adjust n i ≤ n.
Proof. intros Hn. unfold np.adjust. destruct (Z.ltb_spec i 0); lia. Qed.

Lemma elem_of_slice_arange (n : Z) (start stop : option Z) (i : Z) :
  0 ≤ n →
  i ∈ np.slice (np.arange n) start stop
  ↔ from_option (np.adjust n) 0 start ≤ i
    ∧ i < from_option (np.adjust n) n stop.
Proof.
  intros Hn. unfold np.slice, np.arange. rewrite length_seqZ, Z2Nat.id by lia.
  set (lo := from_option (np.adjust n) 0 start).
  set (hi := from_option (np.adjust n) n stop).
  assert (Hlo : 0 ≤ lo ≤ n).
  { unfold lo. destruct start; cbn; [by apply adjust_range|lia]. }
  assert (Hhi : 0 ≤ hi ≤ n).
  { unfold hi. destruct stop; cbn; [by apply adjust_range|lia]. }
  rewrite list_elem_of_lookup. split.
  - intros [k Hk]. rewrite lookup_take in Hk. case_decide; [|done].
    rewrite lookup_drop in Hk.
    destruct (decide (Z.of_nat (Z.to_nat lo + k) < n)) as [Hin|Hout].
    + rewrite lookup_seqZ_lt in Hk by done. injection Hk as <-. lia.
    + rewrite lookup_seqZ_ge in Hk by lia. done.
  - intros [Hil Hih]. exists (Z.to_nat (i - lo)).
    rewrite lookup_take, decide_True by lia.
    rewrite lookup_drop, lookup_seqZ_lt by lia. f_equal. lia.
Qed.

(** Every trial position is a train index or a test index. *)
Lemma indexes_cover (tot_len train_len i : Z) :
  0 ≤ i < tot_len →
  i ∈ np.slice (np.arange tot_len) (Some 0) (Some train_len)
  ∨ i ∈ np.slice (np.arange tot_len) (Some (- (tot_len - train_len))) None.
Proof.
  intros Hi. rewrite !elem_of_slice_arange by lia. cbn [from_option].
  unfold np.adjust.
  destruct (Z.ltb_spec 0 0), (Z.ltb_spec train_len 0),
    (Z.ltb_spec (- (tot_len - train_len)) 0); lia.
Qed.

Lemma take_indices_out_of_range {A} (a : list A) (idx : list Z) (i : Z) :
  i ∈ idx → Z.of_nat (length a) ≤ i → np.take_indices a idx = Err IndexError.
Proof.
  intros Hin Hout. destruct (np.take_indices a idx) as [k|e] eqn:Htake.
  - apply mapM_Ok in Htake.
    apply list_elem_of_lookup in Hin as [j Hj].
    destruct (Forall2_lookup_l _ _ _ _ _ Htake Hj) as (x & _ & Hitem).
    unfold np.item in Hitem.
    destruct (Z.ltb_spec i 0); [lia|].
    replace (i <? Z.of_nat (length a)) with false in Hitem
      by (symmetry; apply Z.ltb_ge; lia).
    by rewrite andb_false_r in Hitem.
  - by apply take_indices_error in Htake as ->.
Qed.

Lemma take_indices_in_range {A} (a : list A) (idx : list Z) :
  Forall (λ i, 0 ≤ i < Z.of_nat (length a)) idx →
  ∃ k, np.take_indices a idx = Ok k.
Proof.
  intros Hidx. apply mapM_returns.
  eapply Forall_impl; [exact Hidx|]. intros i Hi. cbn in Hi.
  destruct (lookup_lt_is_Some_2 a (Z.to_nat i)) as [x Hx]; [lia|].
  exists x. rewrite <- (Z2Nat.id i) by lia. by apply item_lookup.
Qed.

Lemma split_lengths_short_mask (mask : list bool) (tot_len train_len : Z) :
  Z.of_nat (length mask) < tot_len →
  split_lengths mask tot_len train_len = Err IndexError.
Proof.
  intros Hshort. unfold split_lengths.
  destruct (indexes_cover tot_len train_len (Z.of_nat (length mask)))
    as [Hin|Hin]; [lia| |].
  - by rewrite (take_indices_out_of_range _ _ _ Hin).
  - destruct (np.take_indices mask (np.slice _ (Some 0) _)) as [k|e] eqn:Htrain.
    + cbn [mbind result_bind].
      by rewrite (take_indices_out_of_range _ _ _ Hin).
    + by apply take_indices_error in Htrain as ->.
Qed.

Lemma split_lengths_long_mask (mask : list bool) (tot_len train_len : Z) :
  0 ≤ tot_len ≤ Z.of_nat (length mask) →
  ∃ counts, split_lengths mask tot_len train_len = Ok counts.
Proof.
  intros Hlong. unfold split_lengths.
  destruct (take_indices_in_range mask
              (np.slice (np.arange tot_len) (Some 0) (Some train_len)))
    as [k Hk].
  { apply Forall_forall. intros i Hi.
    apply elem_of_slice_arange in Hi; [|lia]. cbn [from_option] in Hi.
    pose proof (adjust_range tot_len 0 ltac:(lia)).
    pose proof (adjust_range tot_len train_len ltac:(lia)). lia. }
  destruct (take_indices_in_range mask
              (np.slice (np.arange tot_len)
                 (Some (- (tot_len - train_len))) None))
    as [k' Hk'].
  { apply Forall_forall. intros i Hi.
    apply elem_of_slice_arange in Hi; [|lia]. cbn [from_option] in Hi.
    pose proof (adjust_range tot_len (- (tot_len - train_len)) ltac:(lia)).
    lia. }
  rewrite Hk. cbn [mbind result_bind]. rewrite Hk'. by eexists.
Qed.

Section dl.
Context {Dataset : Type} `{!Collaborators Dataset}.

(** X7. When a two-file load hands over a mask that has not one entry per
    epoch of the wider window, [dl_loader] raises an index error: a mask
    cut on another number of trials is never applied. *)
Theorem dl_loader_rejects_misfit_mask data_dir name_to_start_codes
    channel_names subject_id resampling_freq clean_ival_ms epoch_ival_ms
    train_test_split clean_on_all_channels validation_frac
    cnt clean_trial_mask (train_len : Z) :
  outcome (load_and_preprocess_data data_dir name_to_start_codes
             channel_names subject_id resampling_freq clean_ival_ms
             train_test_split clean_on_all_channels)
  = Ok (cnt, clean_trial_mask, Some train_len) →
  length clean_trial_mask
  ≠ length (y (create_signal_target_from_raw_mne cnt name_to_start_codes
                 epoch_ival_ms)) →
  outcome (dl_loader data_dir name_to_start_codes channel_names subject_id
             resampling_freq clean_ival_ms epoch_ival_ms train_test_split
             clean_on_all_channels validation_frac)
  = Err IndexError.
Proof.
  intros Hrun Hmisfit. rewrite dl_loader_outcome, Hrun.
  cbn [mbind result_bind]. cbv zeta.
  rewrite set_dimensions_int, determine_losses_int.
  set (epo := create_signal_target_from_raw_mne _ _ _) in *.
  destruct (decide (length clean_trial_mask < length (y epo))%nat)
    as [Hshort|Hlong].
  - by rewrite split_lengths_short_mask by lia.
  - destruct (split_lengths_long_mask clean_trial_mask
                (Z.of_nat (length (y epo))) train_len)
      as [[ntr nte] ->]; [lia|].
    cbn [mbind result_bind].
    destruct (np.bool_index (X epo) _) as [eX|e] eqn:HX.
    + cbn [mbind result_bind]. unfold np.bool_index.
      by rewrite decide_False.
    + by apply bool_index_error in HX as ->.
Qed.

(** X8. When a two-file load hands over a mask with one entry per epoch,
    the epochs carry one label each and the train length leaves a trial
    for the test part, [dl_loader] reaches the builder and ends as the
    builder does: the builder receives the epochs and the labels the mask
    keeps, in their order, the count of clean trials before the train
    length and the count after it, and the two counts add up to the number
    of epochs it receives. *)
Theorem dl_loader_hands_to_builder data_dir name_to_start_codes
    channel_names subject_id resampling_freq clean_ival_ms epoch_ival_ms
    train_test_split clean_on_all_channels validation_frac
    cnt clean_trial_mask (train_len : Z) :
  let epo :=
    create_signal_target_from_raw_mne cnt name_to_start_codes
      epoch_ival_ms in
  let tot_len := Z.of_nat (length (y epo)) in
  outcome (load_and_preprocess_data data_dir name_to_start_codes
             channel_names subject_id resampling_freq clean_ival_ms
             train_test_split clean_on_all_channels)
  = Ok (cnt, clean_trial_mask, Some train_len) →
  length clean_trial_mask = length (y epo) →
  length (X epo) = length (y epo) →
  0 ≤ train_len < tot_len →
  let kept := {| X := np.compress clean_trial_mask (X epo);
                 y := np.compress clean_trial_mask (y epo) |} in
  let new_train_len :=
    np.sum_int (take (Z.to_nat train_len) clean_trial_mask) in
  let new_test_len :=
    np.sum_int (drop (Z.to_nat train_len) clean_trial_mask) in
  outcome (dl_loader data_dir name_to_start_codes channel_names subject_id
             resampling_freq clean_ival_ms epoch_ival_ms train_test_split
             clean_on_all_channels validation_frac)
  = building (from_epo_to_dataset kept new_train_len new_test_len
                validation_frac)
  ∧ length (X kept) = length (y kept)
  ∧ new_train_len + new_test_len = Z.of_nat (length (y kept)).
Proof.
  intros epo tot_len Hrun Hmask HX Hrange kept ntr nte.
  split; [|split].
  - rewrite dl_loader_outcome, Hrun. cbn [mbind result_bind]. cbv zeta.
    fold epo tot_len. rewrite set_dimensions_int, determine_losses_int.
    replace train_len with (Z.of_nat (Z.to_nat train_len)) at 1 by lia.
    unfold tot_len. rewrite <- Hmask.
    rewrite split_lengths_inside by lia. cbn [mbind result_bind].
    unfold np.bool_index. rewrite !decide_True by congruence. done.
  - cbn [X y kept].
    apply Nat2Z.inj. rewrite !length_compress by congruence. done.
  - cbn [y kept]. rewrite length_compress by done.
    apply sum_int_take_drop.
Qed.


End dl.

Lemma dl_loader_rejects_misfit_mask_witness :
  ∃ cnt clean_trial_mask train_len,
    outcome (load_and_preprocess_data (Collaborators0 := Demo.lab) "data"
               Demo.codes ["C3"; "C4"] 1 None (0, 2) true true)
    = Ok (cnt, clean_trial_mask, Some train_len)
    ∧ length clean_trial_mask = 3%nat
    ∧ length (y (Demo.segment cnt Demo.codes (-2, 2))) = 2%nat
    ∧ outcome (dl_loader (Collaborators0 := Demo.lab) "data" Demo.codes
                 ["C3"; "C4"] 1 None (0, 2) (-2, 2) true true (Demo.q 0))
      = Err IndexError.
Proof.
  eexists _, _, _.
  split; [vm_compute; reflexivity|].
  split; [vm_compute; reflexivity|].
  split; [vm_compute; reflexivity|].
  eapply (dl_loader_rejects_misfit_mask (Collaborators0 := Demo.lab)).
  - vm_compute; reflexivity.
  - vm_compute. discriminate.
Defined.

Lemma dl_loader_hands_to_builder_witness :
  ∃ cnt clean_trial_mask train_len dataset,
    outcome (load_and_preprocess_data (Collaborators0 := Demo.lab) "data"
               Demo.codes ["C3"; "C4"] 1 None (0, 2) true true)
    = Ok (cnt, clean_trial_mask, Some train_len)
    ∧ length clean_trial_mask
      = length (y (Demo.segment cnt Demo.codes (-1, 2)))
    ∧ outcome (dl_loader (Collaborators0 := Demo.lab) "data" Demo.codes
                 ["C3"; "C4"] 1 None (0, 2) (-1, 2) true true (Demo.q 0))
      = Ok dataset
    ∧ dataset.1.1.2 + dataset.1.2 = Z.of_nat (length (y dataset.1.1.1)).
Proof.
  eexists _, _, _, _.
  split; [vm_compute; reflexivity|].
  split; [vm_compute; reflexivity|].
  edestruct (dl_loader_hands_to_builder (Collaborators0 := Demo.lab) "data"
               Demo.codes ["C3"; "C4"] 1 None (0, 2) (-1, 2) true true
               (Demo.q 0)) as (Hrun & _ & Hsum).
  - vm_compute; reflexivity.
  - vm_compute; reflexivity.
  - vm_compute; reflexivity.
  - vm_compute. split; [discriminate|reflexivity].
  - split; [exact Hrun|exact Hsum].
Defined.

(** ** More on the clean-trial mask *)

Lemma all_below_more_channels (bound : Qc) (trial extra : np.matrix) :
  all_below bound (trial ++ extra) → all_below bound trial.
Proof.
  unfold all_below. rewrite concat_app, Forall_app. by intros [? _].
Qed.

Lemma mask_entries_weaken (X X' : list np.matrix) (peaks peaks' : list Qc) :
  Forall2 (λ trial trial', ∃ extra, trial' = trial ++ extra) X X' →
  Forall2 (λ trial peak, np.amax (Qcabs <$> concat trial) = Ok peak)
    X peaks →
  Forall2 (λ trial peak, np.amax (Qcabs <$> concat trial) = Ok peak)
    X' peaks' →
  Forall2 (λ b b' : bool, b' = true → b = true)
    ((λ peak, np.ltb peak (Qc_of_Z 800)) <$> peaks)
    ((λ peak, np.ltb peak (Qc_of_Z 800)) <$> peaks').
Proof.
  intros Hext. revert peaks peaks'.
  induction Hext as [|trial trial' X X' [extra ->] _ IH];
    intros peaks peaks' Hp Hp'.
  - inversion Hp; inversion Hp'; subst. constructor.
  - inversion Hp as [|? peak ? ps Hpeak Hps]; subst.
    inversion Hp' as [|? peak' ? ps' Hpeak' Hps']; subst.
    rewrite !fmap_cons. constructor; [|by apply IH].
    intros Hb'. apply (peak_below _ _ _ Hpeak).
    apply (peak_below _ _ _ Hpeak') in Hb'.
    by eapply all_below_more_channels.
Qed.

(** X10. A mask taken on more channels is the stricter one: when every
    trial of a second segmentation is a trial of the first with further
    channels, the second mask keeps a trial only if the first keeps it. *)
Theorem mask_on_more_channels_is_stricter (X X' : list np.matrix)
    (mask mask' : list bool) :
  Forall2 (λ trial trial', ∃ extra, trial' = trial ++ extra) X X' →
  clean_trial_mask_of X = Ok mask →
  clean_trial_mask_of X' = Ok mask' →
  Forall2 (λ b b' : bool, b' = true → b = true) mask mask'.
Proof.
  intros Hext (peaks & Hpeaks & ->)%clean_trial_mask_of_Ok
         (peaks' & Hpeaks' & ->)%clean_trial_mask_of_Ok.
  by eapply mask_entries_weaken.
Qed.

Lemma mask_on_more_channels_is_stricter_witness :
  let one := [[Demo.q 5; Demo.q (-7)]] in
  let two := [[Demo.q 5; Demo.q (-7)]; [Demo.q 900; Demo.q 0]] in
  Forall2 (λ trial trial', ∃ extra, trial' = trial ++ extra) [one] [two]
  ∧ clean_trial_mask_of [one] = Ok [true]
  ∧ clean_trial_mask_of [two] = Ok [false]
  ∧ Forall2 (λ b b' : bool, b' = true → b = true) [true] [false].
Proof.
  intros one two.
  assert (Hext : Forall2
            (λ trial trial' : np.matrix, ∃ extra, trial' = trial ++ extra)
            [one] [two]).
  { constructor; [|constructor]. by exists [[Demo.q 900; Demo.q 0]]. }
  assert (Hone : clean_trial_mask_of [one] = Ok [true])
    by (vm_compute; reflexivity).
  assert (Htwo : clean_trial_mask_of [two] = Ok [false])
    by (vm_compute; reflexivity).
  split; [exact Hext|]. split; [exact Hone|]. split; [exact Htwo|].
  exact (mask_on_more_channels_is_stricter [one] [two] [true] [false]
           Hext Hone Htwo).
Defined.

(** ** More on the mean across channels *)

Lemma length_mean_axis0 (x : np.matrix) :
  length (np.mean_axis0 x) = np.n_columns x.
Proof. unfold np.mean_axis0. by rewrite length_fmap, length_seq. Qed.

Lemma lookup_mean_axis0 (x : np.matrix) (t : nat) :
  (t < np.n_columns x)%nat →
  np.mean_axis0 x !! t
  = Some (np.sum (np.column x t) / Qc_of_Z (Z.of_nat (length x)))%Qc.
Proof.
  intros Ht. unfold np.mean_axis0.
  by rewrite list_lookup_fmap, lookup_seq_lt.
Qed.

Lemma sum_add_const (a : list Qc) (c : Qc) :
  np.sum ((λ v, v + c)%Qc <$> a)
  = (np.sum a + Qc_of_Z (Z.of_nat (length a)) * c)%Qc.
Proof.
  unfold np.sum. induction a as [|v a IH].
  - cbn [foldr length]. change (Z.of_nat 0) with 0.
    rewrite Z2Qc_inj_0. cbn. ring.
  - rewrite fmap_cons. cbn [foldr length].
    rewrite IH, Nat2Z.inj_succ, <- Z.add_1_r, Z2Qc_inj_add, Z2Qc_inj_1.
    ring.
Qed.

Lemma zero_mean_one (v : Qc) : (v - (v + Q2Qc 0) / Q2Qc 1)%Qc = Q2Qc 0.
Proof. field. discriminate. Qed.

Lemma shifted_mean (s n c : Qc) :
  n ≠ Q2Qc 0 → ((s + n * c) / n)%Qc = (s / n + c)%Qc.
Proof. intros Hn. field. exact Hn. Qed.

Lemma channels_nonzero (x : np.matrix) :
  x ≠ [] → Qc_of_Z (Z.of_nat (length x)) ≠ Q2Qc 0.
Proof.
  intros Hx. rewrite <- Z2Qc_inj_0. intros Heq%Z2Qc_inj.
  destruct x; [done|]. cbn [length] in Heq. lia.
Qed.

Lemma n_columns_add_offset (x : np.matrix) (c : list Qc) :
  length c = np.n_columns x →
  np.n_columns (add_offset x c) = np.n_columns x.
Proof.
  destruct x as [|row x]; [done|]. unfold np.n_columns. cbn.
  intros Hc. rewrite length_zip_with. lia.
Qed.

Lemma column_add_offset (x : np.matrix) (c : list Qc) (t : nat) (ct : Qc) :
  rectangular x → length c = np.n_columns x → c !! t = Some ct →
  np.column (add_offset x c) t = (λ v, v + ct)%Qc <$> np.column x t.
Proof.
  intros Hx Hc Hct. unfold np.column, add_offset.
  rewrite <- !list_fmap_compose. apply Forall_fmap_ext_1.
  eapply Forall_impl; [exact Hx|]. intros row Hrow. cbn.
  rewrite lookup_zip_with, Hct.
  pose proof (lookup_lt_Some _ _ _ Hct) as Hlt. cbv beta in Hrow.
  destruct (lookup_lt_is_Some_2 row t) as [v Hv]; [lia|].
  by rewrite Hv.
Qed.

Lemma mean_axis0_add_offset (x : np.matrix) (c : list Qc) :
  rectangular x → length c = np.n_columns x → x ≠ [] →
  np.mean_axis0 (add_offset x c) = zip_with Qcplus (np.mean_axis0 x) c.
Proof.
  intros Hx Hc Hne. apply list_eq. intros t.
  destruct (decide (t < np.n_columns x)%nat) as [Ht|Ht].
  - rewrite lookup_mean_axis0 by (by rewrite n_columns_add_offset).
    rewrite lookup_zip_with, lookup_mean_axis0 by done.
    destruct (lookup_lt_is_Some_2 c t) as [ct Hct]; [lia|].
    rewrite Hct. cbn. f_equal.
    rewrite (column_add_offset _ _ _ _ Hx Hc Hct), sum_add_const.
    unfold add_offset, np.column. rewrite !length_fmap.
    apply shifted_mean. by apply channels_nonzero.
  - rewrite !lookup_ge_None_2; [done| |].
    + rewrite length_zip_with, length_mean_axis0. lia.
    + rewrite length_mean_axis0, n_columns_add_offset by done. lia.
Qed.

(** X11. Mean subtraction removes whatever all channels share: adding to
    every channel one and the same offset per time sample leaves the
    result of the mean subtraction as it was. *)
Theorem subtract_mean_removes_common_offset (x : np.matrix) (c : list Qc) :
  rectangular x → length c = np.n_columns x →
  subtract_mean (add_offset x c) = subtract_mean x.
Proof.
  intros Hx Hc. destruct (decide (x = [])) as [->|Hne]; [done|].
  unfold subtract_mean. rewrite mean_axis0_add_offset by done.
  unfold np.sub_row, add_offset. rewrite <- list_fmap_compose.
  apply Forall_fmap_ext_1.
  eapply Forall_impl; [exact Hx|]. intros row Hrow. cbv beta in Hrow. cbn.
  apply list_eq. intros t. rewrite !lookup_zip_with.
  pose proof (length_mean_axis0 x) as Hm.
  destruct (decide (t < length row)%nat) as [Ht|Ht].
  - destruct (lookup_lt_is_Some_2 row t) as [v ->]; [done|].
    destruct (lookup_lt_is_Some_2 c t) as [ct ->]; [lia|].
    destruct (lookup_lt_is_Some_2 (np.mean_axis0 x) t) as [m ->]; [lia|].
    cbn. f_equal. ring.
  - by rewrite (lookup_ge_None_2 row) by lia.
Qed.

Lemma subtract_mean_removes_common_offset_witness :
  rectangular (data Demo.solo_raw)
  ∧ length [Demo.q 50; Demo.q (-3); Demo.q 0; Demo.q 7]
    = np.n_columns (data Demo.solo_raw)
  ∧ subtract_mean (add_offset (data Demo.solo_raw)
                     [Demo.q 50; Demo.q (-3); Demo.q 0; Demo.q 7])
    = subtract_mean (data Demo.solo_raw).
Proof.
  assert (Hrect : rectangular (data Demo.solo_raw)) by (repeat constructor).
  assert (Hlen : length [Demo.q 50; Demo.q (-3); Demo.q 0; Demo.q 7]
                 = np.n_columns (data Demo.solo_raw)) by reflexivity.
  split; [exact Hrect|]. split; [exact Hlen|].
  exact (subtract_mean_removes_common_offset _ _ Hrect Hlen).
Defined.

(** X12. On a recording with a single channel the mean across channels is
    the channel itself, so mean subtraction leaves a signal that is zero at
    every sample. *)
Theorem subtract_mean_single_channel (row : list Qc) :
  subtract_mean [row] = [replicate (length row) (Q2Qc 0)].
Proof.
  unfold subtract_mean, np.sub_row. cbn [fmap list_fmap]. f_equal.
  apply list_eq. intros t. rewrite lookup_zip_with.
  destruct (decide (t < length row)%nat) as [Ht|Ht].
  - destruct (lookup_lt_is_Some_2 row t) as [v Hv]; [done|].
    rewrite Hv, lookup_mean_axis0 by done. cbn.
    rewrite lookup_replicate_2 by done. f_equal.
    unfold np.column, np.sum. cbn [fmap list_fmap foldr length].
    rewrite Hv. cbn [default from_option].
    change (Z.of_nat 1) with 1. rewrite Z2Qc_inj_1. unfold id.
    apply (zero_mean_one v).
  - rewrite (lookup_ge_None_2 row) by lia. cbn. symmetry.
    apply lookup_ge_None_2. rewrite length_replicate. lia.
Qed.

(** X13. Mean subtraction keeps the shape of the signal: as many channels,
    as many samples in each, and a rectangular array again. *)
Theorem subtract_mean_keeps_shape (x : np.matrix) :
  rectangular x →
  length (subtract_mean x) = length x
  ∧ np.n_columns (subtract_mean x) = np.n_columns x
  ∧ rectangular (subtract_mean x)
  ∧ Forall2 (λ row row', length row' = length row) x (subtract_mean x).
Proof.
  intros Hx. pose proof (length_mean_axis0 x) as Hm.
  split; [unfold subtract_mean, np.sub_row; by rewrite length_fmap|].
  split; [by apply n_columns_sub_row|].
  split; [by apply rectangular_sub_row|].
  unfold subtract_mean, np.sub_row. apply Forall2_fmap_r, Forall_Forall2_diag.
  eapply Forall_impl; [exact Hx|]. intros row Hrow. cbv beta in Hrow.
  unfold compose. rewrite length_zip_with. lia.
Qed.

Lemma subtract_mean_keeps_shape_witness :
  rectangular (data Demo.train_raw)
  ∧ length (subtract_mean (data Demo.train_raw)) = 2%nat
  ∧ np.n_columns (subtract_mean (data Demo.train_raw)) = 6%nat.
Proof.
  assert (Hrect : rectangular (data Demo.train_raw)) by (repeat constructor).
  split; [exact Hrect|].
  destruct (subtract_mean_keeps_shape _ Hrect) as (Hrows & Hcols & _).
  split; [exact Hrows|exact Hcols].
Defined.

(** ** What the mask does not depend on *)

Section runs.
Context {Dataset : Type} `{!Collaborators Dataset}.

(** X15. The mask and the split boundary do not depend on the resampling
    frequency: two runs that differ in it alone and both return, return
    the same mask and the same boundary. *)
Theorem mask_ignores_resampling (data_dir : string)
    (name_to_start_codes : start_codes) (channel_names : list string)
    (subject_id : Z) (resampling_freq resampling_freq' : option Qc)
    (clean_ival_ms : ival_ms)
    (train_test_split clean_on_all_channels : bool)
    cnt mask boundary cnt' mask' boundary' :
  outcome (load_and_preprocess_data data_dir name_to_start_codes
             channel_names subject_id resampling_freq clean_ival_ms
             train_test_split clean_on_all_channels)
  = Ok (cnt, mask, boundary) →
  outcome (load_and_preprocess_data data_dir name_to_start_codes
             channel_names subject_id resampling_freq' clean_ival_ms
             train_test_split clean_on_all_channels)
  = Ok (cnt', mask', boundary') →
  mask = mask' ∧ boundary = boundary'.
Proof.
  rewrite !load_and_preprocess_data_outcome.
  destruct (outcome (load_continuous_data _ _ _)) as [[raw tl]|e]; [|done].
  cbn [mbind result_bind].
  destruct (get_clean_trial_mask _ _ _) as [m|e]; [|done].
  cbn [mbind result_bind].
  destruct (picking _) as [picked|e]; [|done].
  by intros [= _ <- <-] [= _ <- <-].
Qed.

(** X16. With [clean_on_all_channels] set, the mask and the split boundary
    do not depend on the channel names either: two runs that differ in
    them alone and both return, return the same mask and the same
    boundary. *)
Theorem mask_ignores_channel_names (data_dir : string)
    (name_to_start_codes : start_codes) (channel_names channel_names' : list string)
    (subject_id : Z) (resampling_freq : option Qc) (clean_ival_ms : ival_ms)
    (train_test_split : bool) cnt mask boundary cnt' mask' boundary' :
  outcome (load_and_preprocess_data data_dir name_to_start_codes
             channel_names subject_id resampling_freq clean_ival_ms
             train_test_split true) = Ok (cnt, mask, boundary) →
  outcome (load_and_preprocess_data data_dir name_to_start_codes
             channel_names' subject_id resampling_freq clean_ival_ms
             train_test_split true) = Ok (cnt', mask', boundary') →
  mask = mask' ∧ boundary = boundary'.
Proof.
  rewrite !load_and_preprocess_data_outcome.
  assert (Hload : outcome (load_continuous_data
                    (get_data_files_paths data_dir subject_id train_test_split)
                    channel_names true)
                  = outcome (load_continuous_data
                    (get_data_files_paths data_dir subject_id train_test_split)
                    channel_names' true)).
  { unfold get_data_files_paths. destruct train_test_split;
      by rewrite ?load_continuous_data_one, ?load_continuous_data_two. }
  rewrite Hload.
  destruct (outcome (load_continuous_data _ _ _)) as [[raw tl]|e]; [|done].
  cbn [mbind result_bind].
  destruct (get_clean_trial_mask _ _ _) as [m|e]; [|done].
  cbn [mbind result_bind].
  destruct (picking (pick_right_channels raw channel_names))
    as [picked|e]; [|done].
  destruct (picking (pick_right_channels raw channel_names'))
    as [picked'|e]; [|done].
  by intros [= _ <- <-] [= _ <- <-].
Qed.

(** X19. The mask of [ml_loader] does not depend on the channel names:
    two runs that differ in them alone and both return, return the same
    mask. *)
Theorem ml_loader_mask_ignores_channel_names (data_dir : string)
    (name_to_start_codes : start_codes)
    (channel_names channel_names' : list string)
    (subject_id : Z) (resampling_freq : option Qc) (clean_ival_ms : ival_ms)
    (train_test_split : bool) cnt mask cnt' mask' :
  outcome (ml_loader data_dir name_to_start_codes channel_names subject_id
             resampling_freq clean_ival_ms train_test_split)
  = Ok (cnt, mask) →
  outcome (ml_loader data_dir name_to_start_codes channel_names' subject_id
             resampling_freq clean_ival_ms train_test_split)
  = Ok (cnt', mask') →
  mask = mask'.
Proof.
  unfold ml_loader. rewrite !outcome_bind.
  rewrite !load_and_preprocess_data_outcome.
  assert (Hload : outcome (load_continuous_data
                    (get_data_files_paths data_dir subject_id train_test_split)
                    channel_names' true)
                  = outcome (load_continuous_data
                    (get_data_files_paths data_dir subject_id train_test_split)
                    channel_names true)).
  { unfold get_data_files_paths. destruct train_test_split;
      by rewrite ?load_continuous_data_one, ?load_continuous_data_two. }
  rewrite Hload.
  destruct (outcome (load_continuous_data _ channel_names true))
    as [[raw tl]|e] eqn:Hraw; [|done].
  cbn [mbind result_bind].
  destruct (get_clean_trial_mask _ _ _) as [m|e] eqn:Hm; [|done].
  cbn [mbind result_bind].
  destruct (picking (pick_right_channels raw channel_names))
    as [picked|e]; [|done].
  destruct (picking (pick_right_channels raw channel_names'))
    as [picked'|e]; [|done].
  cbn. by intros [= _ <-] [= _ <-].
Qed.

End runs.

Lemma mask_ignores_channel_names_witness :
  ∃ cnt mask boundary cnt' mask' boundary',
    outcome (load_and_preprocess_data (Collaborators0 := Demo.lab) "data"
               Demo.codes ["C3"] 1 None (0, 2) true true)
    = Ok (cnt, mask, boundary)
    ∧ outcome (load_and_preprocess_data (Collaborators0 := Demo.lab) "data"
                 Demo.codes ["C4"; "C3"] 1 None (0, 2) true true)
      = Ok (cnt', mask', boundary')
    ∧ ch_names cnt ≠ ch_names cnt'
    ∧ mask = mask' ∧ boundary = boundary'.
Proof.
  eexists _, _, _, _, _, _.
  split; [vm_compute; reflexivity|].
  split; [vm_compute; reflexivity|].
  split; [discriminate|].
  eapply (mask_ignores_channel_names (Collaborators0 := Demo.lab) "data"
            Demo.codes ["C3"] ["C4"; "C3"] 1 None (0, 2) true);
    vm_compute; reflexivity.
Defined.

Lemma mask_ignores_resampling_witness :
  ∃ cnt mask boundary cnt' mask' boundary',
    outcome (load_and_preprocess_data (Collaborators0 := Demo.lab) "data"
               Demo.codes ["C3"; "C4"] 1 None (0, 2) true true)
    = Ok (cnt, mask, boundary)
    ∧ outcome (load_and_preprocess_data (Collaborators0 := Demo.lab) "data"
                 Demo.codes ["C3"; "C4"] 1 (Some (Demo.q 500)) (0, 2)
                 true true)
      = Ok (cnt', mask', boundary')
    ∧ sfreq cnt ≠ sfreq cnt'
    ∧ mask = mask' ∧ boundary = boundary'.
Proof.
  eexists _, _, _, _, _, _.
  split; [vm_compute; reflexivity|].
  split; [vm_compute; reflexivity|].
  split; [discriminate|].
  eapply (mask_ignores_resampling (Collaborators0 := Demo.lab) "data"
            Demo.codes ["C3"; "C4"] 1 None (Some (Demo.q 500)) (0, 2)
            true true);
    vm_compute; reflexivity.
Defined.

Lemma ml_loader_mask_ignores_channel_names_witness :
  ∃ cnt mask cnt' mask',
    outcome (ml_loader (Collaborators0 := Demo.lab) "data" Demo.codes
               ["C3"] 1 None (0, 2) true)
    = Ok (cnt, mask)
    ∧ outcome (ml_loader (Collaborators0 := Demo.lab) "data" Demo.codes
                 ["C4"; "C3"] 1 None (0, 2) true)
      = Ok (cnt', mask')
    ∧ ch_names cnt ≠ ch_names cnt'
    ∧ mask = mask'.
Proof.
  eexists _, _, _, _.
  split; [vm_compute; reflexivity|].
  split; [vm_compute; reflexivity|].
  split; [discriminate|].
  eapply (ml_loader_mask_ignores_channel_names (Collaborators0 := Demo.lab)
            "data" Demo.codes ["C3"] ["C4"; "C3"] 1 None (0, 2) true);
    vm_compute; reflexivity.
Defined.
